(** * ERASynth Micro serial driver

    A shallow embedding of [inst_ERASynthMicro.py], the Python class
    [InstERASynthMicro] that drives an ERASynth Micro RF signal generator over
    a serial link, and the properties of its wire protocol.

    Conventions of the model.
    - A Python [str] is a [string]; text is ASCII, one character per byte, so
      [str.encode()] and [bytes.decode()] keep the characters as they are.
    - A Python [float] is a primitive binary64 [float]; its value is read
      through [Prim2SF].
    - Everything the driver does to the outside (serial port, clock, logging)
      is an [event]; a method is a function from the [world] it starts in to
      its result, the events it emitted in order, and the world it leaves. *)

From Stdlib Require Import ZArith List String Ascii Strings.Byte Bool Lia.
From Stdlib Require Import PrimFloat SpecFloat FloatOps.
From Stdlib Require Import DecimalString DecimalZ DecimalPos.
Import ListNotations.

Set Warnings "-inexact-float".
Local Open Scope string_scope.
Local Open Scope Z_scope.
Local Open Scope list_scope.

(** Python's [+] on strings. *)
Infix "+++" := String.append (at level 60, right associativity).

(** ** Python values and the built-ins the driver calls *)

Module Py.

(** The kinds of argument a caller can pass: [PyObj cls text] is an instance
    of any other class [cls] whose [__str__] gives [text]. *)
Inductive value : Type :=
| PyFloat (f : float)
| PyInt (z : Z)
| PyStr (s : string)
| PyBool (b : bool)
| PyNone
| PyObj (cls : string) (text : string).

Inductive exn : Type :=
| SerialException
| SystemExit
| OverflowError
| ValueError.

(** A Python expression either has a value or raises. *)
Inductive res (A : Type) : Type :=
| Ok (a : A)
| Raise (e : exn).
Arguments Ok {A} a.
Arguments Raise {A} e.

(** [str(z)] for an [int]: decimal digits, with a leading minus sign. The
    integer is printed in full, whatever its size, as interpreters did when
    the driver was written. CPython 3.11 and later raise ValueError for an
    int of more than [int_max_str_digits] digits; a statement that says what
    an int is printed as assumes [printable], so that it holds there too. *)
Definition str_int (z : Z) : string := NilZero.string_of_int (Z.to_int z).

(** The default limit on the digits of an int turned into text. *)
Definition int_max_str_digits : Z := 4300.

(** [z] has at most [int_max_str_digits] decimal digits. *)
Definition printable (z : Z) : bool := Z.abs z <? 10 ^ int_max_str_digits.

(** A decimal numeral read back, as [int(text)] reads it. *)
Definition read_decimal (s : string) : option Z :=
  option_map Z.of_int (NilZero.int_of_string s).

(** [c] is one of the digits 0 to 9. *)
Definition is_digit (c : ascii) : bool :=
  ((48 <=? N_of_ascii c) && (N_of_ascii c <=? 57))%N.

Fixpoint all_digits (s : string) : bool :=
  match s with
  | EmptyString => true
  | String c s' => is_digit c && all_digits s'
  end.

(** Digits, after a minus sign or not. *)
Definition is_decimal (s : string) : bool :=
  match s with
  | EmptyString => false
  | String c s' =>
      if Ascii.eqb c "-"
      then negb (String.eqb s' EmptyString) && all_digits s'
      else all_digits s
  end.

(** The exact value of a finite float [(-1)^s * m * 2^e] as a fraction
    [num / den] with [den] a power of two. *)
Definition num (s : bool) (m : positive) (e : Z) : Z :=
  (if s then Z.neg m else Z.pos m) * 2 ^ Z.max e 0.
Definition den (e : Z) : Z := 2 ^ Z.max (- e) 0.

(** [int(f)] for a [float]: the integer part, rounding toward zero; an
    infinity raises OverflowError and a NaN raises ValueError. *)
Definition int_float (f : float) : res Z :=
  match Prim2SF f with
  | S754_zero _ => Ok 0
  | S754_infinity _ => Raise OverflowError
  | S754_nan => Raise ValueError
  | S754_finite s m e => Ok (Z.quot (num s m e) (den e))
  end.

(** [str.lower()] on ASCII text. *)
Definition lower_char (c : ascii) : ascii :=
  let n := N_of_ascii c in
  if ((65 <=? n) && (n <=? 90))%N then ascii_of_N (n + 32) else c.

Fixpoint lower (s : string) : string :=
  match s with
  | EmptyString => EmptyString
  | String c s' => String (lower_char c) (lower s')
  end.

(** [str.isspace()] on one ASCII character: tab, LF, VT, FF, CR, the four
    separators 0x1C-0x1F, and the space. *)
Definition isspace (c : ascii) : bool :=
  let n := N_of_ascii c in
  (((9 <=? n) && (n <=? 13)) || ((28 <=? n) && (n <=? 31)) || (n =? 32))%N.

Fixpoint lstrip (s : string) : string :=
  match s with
  | EmptyString => EmptyString
  | String c s' => if isspace c then lstrip s' else s
  end.

Fixpoint rstrip (s : string) : string :=
  match s with
  | EmptyString => EmptyString
  | String c s' =>
      match rstrip s' with
      | EmptyString => if isspace c then EmptyString else String c EmptyString
      | r => String c r
      end
  end.

(** [str.strip()] with no argument. *)
Definition strip (s : string) : string := rstrip (lstrip s).

(** [s[-1]], when there is one. *)
Fixpoint last_char (s : string) : option ascii :=
  match s with
  | EmptyString => None
  | String c EmptyString => Some c
  | String _ s' => last_char s'
  end.

(** [x in [a, b, ...]] on strings. *)
Definition contains (l : list string) (x : string) : bool :=
  existsb (String.eqb x) l.

Definition encode (s : string) : list byte := list_byte_of_string s.
Definition decode (b : list byte) : string := string_of_list_byte b.

(** Text whose every character is below 128. *)
Fixpoint is_ascii (s : string) : bool :=
  match s with
  | EmptyString => true
  | String c s' => (N_of_ascii c <? 128)%N && is_ascii s'
  end.

End Py.
Import Py.

(** ** The outside world: serial port, clock and log *)

Inductive level : Type := INFO | WARNING | ERROR.

Inductive event : Type :=
| EvOpen (port : string)
| EvWrite (data : list byte)
| EvFlush
| EvReadline
| EvClose
| EvSleep (secs : float)
| EvLog (lvl : level) (msg : string).

(** [ports]: the device paths that can be opened; [rx]: the lines the
    instrument will answer with, in order. *)
Record world : Type := World { ports : list string; rx : list (list byte) }.

Record outcome (A : Type) : Type :=
  Outcome { result : res A; emitted : list event; after : world }.
Arguments Outcome {A} result emitted after.
Arguments result {A} o.
Arguments emitted {A} o.
Arguments after {A} o.

(** Commands: state passing over [world], a log of events, exceptions. *)
Definition M (A : Type) : Type := world -> outcome A.

Definition ret {A} (a : A) : M A := fun w => Outcome (Ok a) [] w.

Definition raise {A} (e : exn) : M A := fun w => Outcome (Raise e) [] w.

Definition bind {A B} (m : M A) (k : A -> M B) : M B :=
  fun w =>
    let o := m w in
    match result o with
    | Ok a =>
        let o' := k a (after o) in
        Outcome (result o') (emitted o ++ emitted o') (after o')
    | Raise e => Outcome (Raise e) (emitted o) (after o)
    end.

Definition lift {A} (r : res A) : M A := fun w => Outcome r [] w.

Definition emit (ev : event) : M unit := fun w => Outcome (Ok tt) [ev] w.

(** [try: m  except e: handler]. *)
Definition try_except {A} (m : M A) (e : exn) (handler : M A) : M A :=
  fun w =>
    let o := m w in
    match result o with
    | Ok a => o
    | Raise e' =>
        match e, e' with
        | SerialException, SerialException
        | SystemExit, SystemExit
        | OverflowError, OverflowError
        | ValueError, ValueError =>
            let o' := handler (after o) in
            Outcome (result o') (emitted o ++ emitted o') (after o')
        | _, _ => o
        end
    end.

Notation "x <- m ;; k" := (bind m (fun x => k))
  (at level 61, m at next level, right associativity).
Notation "m ;; k" := (bind m (fun _ => k))
  (at level 61, right associativity).

(** The bytes written to the port, one entry per [write] call. *)
Fixpoint writes (evs : list event) : list (list byte) :=
  match evs with
  | [] => []
  | EvWrite d :: evs' => d :: writes evs'
  | _ :: evs' => writes evs'
  end.

(** The log records at level [lvl]. *)
Fixpoint logged (lvl : level) (evs : list event) : list string :=
  match evs with
  | [] => []
  | EvLog l msg :: evs' =>
      match l, lvl with
      | INFO, INFO | WARNING, WARNING | ERROR, ERROR => msg :: logged lvl evs'
      | _, _ => logged lvl evs'
      end
  | _ :: evs' => logged lvl evs'
  end.

(** *** pyserial *)

Record Serial : Type :=
  { port : string; baudrate : Z; timeout : Z; rtscts : bool; xonxoff : bool }.

(** [serial.Serial(port=..., baudrate=..., ...)]: opens the port or raises. *)
Definition Serial_new (port : string) (baudrate timeout : Z)
    (rtscts xonxoff : bool) : M Serial :=
  emit (EvOpen port) ;;
  fun w =>
    if contains (ports w) port
    then ret (Build_Serial port baudrate timeout rtscts xonxoff) w
    else raise SerialException w.

Definition Serial_write (link : Serial) (data : list byte) : M unit :=
  emit (EvWrite data).

Definition Serial_flush (link : Serial) : M unit := emit EvFlush.

(** [readline()]: the next line of the instrument, or nothing on a timeout. *)
Definition Serial_readline (link : Serial) : M (list byte) :=
  emit EvReadline ;;
  fun w =>
    match rx w with
    | [] => ret [] w
    | l :: rest => Outcome (Ok l) [] (World (ports w) rest)
    end.

Definition Serial_close (link : Serial) : M unit := emit EvClose.

Definition time_sleep (secs : float) : M unit := emit (EvSleep secs).

Definition log_info (msg : string) : M unit := emit (EvLog INFO msg).
Definition log_warning (msg : string) : M unit := emit (EvLog WARNING msg).
Definition log_error (msg : string) : M unit := emit (EvLog ERROR msg).

Definition sys_exit {A} : M A := raise SystemExit.

(** ** The class [InstERASynthMicro] *)

Section Driver.

(** [str(f)] of a [float] is Python's own shortest-digits printer; the driver
    only passes its text on, so it is kept abstract. *)
Variable float_repr : float -> string.

(** [str(v)], which is also what [{v}] in an f-string gives. *)
Definition str (v : value) : string :=
  match v with
  | PyFloat f => float_repr f
  | PyInt z => str_int z
  | PyStr s => s
  | PyBool true => "True"
  | PyBool false => "False"
  | PyNone => "None"
  | PyObj _ text => text
  end.

Record InstERASynthMicro : Type := { __serial_link : Serial }.

(** 100 ms of breathing room after a command, in seconds. *)
Definition __SEND_DELAY : float := 0.1%float.

(** Commands end with a CR. *)
Definition __EOL : list byte := [x0d].

Definition __init__ (port : string) : M InstERASynthMicro :=
  try_except
    (link <- Serial_new port 9600 1 true true ;;
     ret {| __serial_link := link |})
    SerialException
    (log_error ("ERROR: Unable to open serial port " +++ port) ;;
     sys_exit).

Definition __del__ (self : InstERASynthMicro) : M unit :=
  Serial_close (__serial_link self).

(** Sends one command, ended with CR, then waits. *)
Definition __send_cmd (self : InstERASynthMicro) (cmd : string) : M unit :=
  Serial_write (__serial_link self) (encode cmd ++ __EOL) ;;
  Serial_flush (__serial_link self) ;;
  time_sleep __SEND_DELAY.

(** Sends one command and returns the answer as a string. *)
Definition __send_cmd_resp (self : InstERASynthMicro) (cmd : string)
    : M string :=
  Serial_write (__serial_link self) (encode cmd ++ __EOL) ;;
  Serial_flush (__serial_link self) ;;
  line <- Serial_readline (__serial_link self) ;;
  let resp := decode line in
  let resp_clean := strip resp in
  ret (strip resp_clean).

Definition refresh_lcd_home (self : InstERASynthMicro) : M unit :=
  __send_cmd self ">GH".

Definition set_rf_on (self : InstERASynthMicro) : M unit :=
  __send_cmd self ">SF1" ;;
  log_info "Synth ON" ;;
  refresh_lcd_home self.

Definition set_rf_off (self : InstERASynthMicro) : M unit :=
  __send_cmd self ">SF0" ;;
  log_info "Synth OFF" ;;
  refresh_lcd_home self.

(** Numeric value (frequency, time, ...) to the text sent on the line. *)
Definition __num_to_str (freq : value) : res string :=
  match freq with
  | PyFloat f =>
      match int_float f with
      | Ok z => Ok (str_int z)
      | Raise e => Raise e
      end
  | PyInt z => Ok (str_int z)
  | PyStr _ => Ok "0"
  | _ => Ok "0"
  end.

Definition set_frequency (self : InstERASynthMicro) (freq : value) : M unit :=
  n <- lift (__num_to_str freq) ;;
  __send_cmd self (">F" +++ n) ;;
  log_info ("Frequency set to " +++ str freq +++ " Hz") ;;
  refresh_lcd_home self.

Definition set_amplitude (self : InstERASynthMicro) (ampl : value) : M unit :=
  __send_cmd self (">SA" +++ str ampl) ;;
  log_info ("Amplitude set to " +++ str ampl +++ " dBm") ;;
  refresh_lcd_home self.

Definition set_modulation_on (self : InstERASynthMicro) : M unit :=
  __send_cmd self ">SM1" ;;
  log_info "Modulation ON" ;;
  refresh_lcd_home self.

Definition set_modulation_off (self : InstERASynthMicro) : M unit :=
  __send_cmd self ">SM0" ;;
  log_info "Modulation OFF" ;;
  refresh_lcd_home self.

Definition set_modulation_source_internal (self : InstERASynthMicro)
    : M unit :=
  __send_cmd self ">SMI0" ;;
  log_info "Modulation source set to INTERNAL" ;;
  refresh_lcd_home self.

Definition set_modulation_source_external (self : InstERASynthMicro)
    : M unit :=
  __send_cmd self ">SMI1" ;;
  log_info "Modulation source set to EXTERNAL" ;;
  refresh_lcd_home self.

Definition set_modulation_source_microphone (self : InstERASynthMicro)
    : M unit :=
  __send_cmd self ">SMI2" ;;
  log_info "Modulation source set to MICROPHONE" ;;
  refresh_lcd_home self.

Definition set_modulation_source (self : InstERASynthMicro) (source : string)
    : M unit :=
  (if contains ["internal"; "int"] (lower source)
   then set_modulation_source_internal self
   else if contains ["external"; "ext"] (lower source)
   then set_modulation_source_external self
   else if contains ["microphone"; "mic"] (lower source)
   then set_modulation_source_microphone self
   else log_warning ("Modulation source not set, incorrect source: "
                     +++ lower source)) ;;
  refresh_lcd_home self.

Definition set_modulation_type_am (self : InstERASynthMicro) : M unit :=
  __send_cmd self ">SMT0" ;;
  log_info "Modulation type set to AM" ;;
  refresh_lcd_home self.

Definition set_modulation_type_fm (self : InstERASynthMicro) : M unit :=
  __send_cmd self ">SMT1" ;;
  log_info "Modulation type set to FM" ;;
  refresh_lcd_home self.

Definition set_modulation_type_pulse (self : InstERASynthMicro) : M unit :=
  __send_cmd self ">SMT2" ;;
  log_info "Modulation type set to PULSE" ;;
  refresh_lcd_home self.

Definition set_modulation_type (self : InstERASynthMicro) (mod_type : string)
    : M unit :=
  (if contains ["am"; "amplitude"] (lower mod_type)
   then set_modulation_type_am self
   else if contains ["fm"; "frequency"] (lower mod_type)
   then set_modulation_type_fm self
   else if contains ["pulse"] (lower mod_type)
   then set_modulation_type_pulse self
   else log_warning ("Modulation type not set, incorrect type: "
                     +++ lower mod_type)) ;;
  refresh_lcd_home self.

Definition set_modulation_wave_sine (self : InstERASynthMicro) : M unit :=
  __send_cmd self ">SMW0" ;;
  log_info "Modulation wave type set to SINE" ;;
  refresh_lcd_home self.

Definition set_modulation_wave_ramp (self : InstERASynthMicro) : M unit :=
  __send_cmd self ">SMW1" ;;
  log_info "Modulation wave type set to RAMP" ;;
  refresh_lcd_home self.

Definition set_modulation_wave_square (self : InstERASynthMicro) : M unit :=
  __send_cmd self ">SMW2" ;;
  log_info "Modulation wave type set to SQUARE" ;;
  refresh_lcd_home self.

Definition set_modulation_wave_triangle (self : InstERASynthMicro) : M unit :=
  __send_cmd self ">SMW0" ;;
  log_info "Modulation wave type set to TRIANGLE" ;;
  refresh_lcd_home self.

Definition set_modulation_wave_type (self : InstERASynthMicro) (wave : string)
    : M unit :=
  (if contains ["sine"] (lower wave)
   then set_modulation_wave_sine self
   else if contains ["ramp"] (lower wave)
   then set_modulation_wave_ramp self
   else if contains ["square"] (lower wave)
   then set_modulation_wave_square self
   else if contains ["triangle"] (lower wave)
   then set_modulation_wave_triangle self
   else log_warning ("Modulation wave type not set, incorrect wave: "
                     +++ lower wave)) ;;
  refresh_lcd_home self.

Definition set_modulation_frequency (self : InstERASynthMicro) (freq : value)
    : M unit :=
  n <- lift (__num_to_str freq) ;;
  __send_cmd self (">SMF" +++ n) ;;
  log_info ("Internal modulation frequency set to " +++ str freq +++ " Hz") ;;
  refresh_lcd_home self.

Definition set_modulation_am_depth (self : InstERASynthMicro) (depth : value)
    : M unit :=
  __send_cmd self (">SMA" +++ str depth) ;;
  log_info ("AM modulation depth set to " +++ str depth +++ "%") ;;
  refresh_lcd_home self.

Definition set_modulation_fm_deviation (self : InstERASynthMicro)
    (deviation : value) : M unit :=
  n <- lift (__num_to_str deviation) ;;
  __send_cmd self (">SMFD" +++ n) ;;
  log_info ("FM deviation set to " +++ str deviation +++ " Hz") ;;
  refresh_lcd_home self.

Definition set_modulation_pulse_period_us (self : InstERASynthMicro)
    (period : value) : M unit :=
  n <- lift (__num_to_str period) ;;
  __send_cmd self (">SMPP" +++ n) ;;
  log_info ("Pulse modulation period set to " +++ str period +++ " µs") ;;
  refresh_lcd_home self.

Definition set_modulation_pulse_width_us (self : InstERASynthMicro)
    (width : value) : M unit :=
  n <- lift (__num_to_str width) ;;
  __send_cmd self (">SMPW" +++ n) ;;
  log_info ("Pulse modulation width set to " +++ str width +++ " µs") ;;
  refresh_lcd_home self.

Definition set_sweep_on (self : InstERASynthMicro) : M unit :=
  __send_cmd self ">SS5" ;;
  log_info "Sweep ON" ;;
  refresh_lcd_home self.

Definition set_sweep_off (self : InstERASynthMicro) : M unit :=
  __send_cmd self ">SS6" ;;
  log_info "Sweep OFF" ;;
  refresh_lcd_home self.

Definition set_sweep_trigger_freerun (self : InstERASynthMicro) : M unit :=
  __send_cmd self ">SS70" ;;
  log_info "Sweep trigger set to FREERUN" ;;
  refresh_lcd_home self.

Definition set_sweep_trigger_external (self : InstERASynthMicro) : M unit :=
  __send_cmd self ">SS71" ;;
  log_info "Sweep trigger set to EXTERNAL" ;;
  refresh_lcd_home self.

Definition set_sweep_trigger (self : InstERASynthMicro) (trigger : string)
    : M unit :=
  (if contains ["free"; "freerun"] (lower trigger)
   then set_sweep_trigger_freerun self
   else if contains ["ext"; "external"] (lower trigger)
   then set_sweep_trigger_external self
   else log_warning ("Sweep trigger not set, incorrect type: "
                     +++ lower trigger)) ;;
  refresh_lcd_home self.

Definition set_sweep_start_frequency (self : InstERASynthMicro) (freq : value)
    : M unit :=
  n <- lift (__num_to_str freq) ;;
  __send_cmd self (">SS1" +++ n) ;;
  log_info ("Sweep START frequency set to " +++ str freq +++ " Hz") ;;
  refresh_lcd_home self.

Definition set_sweep_stop_frequency (self : InstERASynthMicro) (freq : value)
    : M unit :=
  n <- lift (__num_to_str freq) ;;
  __send_cmd self (">SS2" +++ n) ;;
  log_info ("Sweep STOP frequency set to " +++ str freq +++ " Hz") ;;
  refresh_lcd_home self.

Definition set_sweep_step_frequency (self : InstERASynthMicro) (freq : value)
    : M unit :=
  n <- lift (__num_to_str freq) ;;
  __send_cmd self (">SS3" +++ n) ;;
  log_info ("Sweep STEP frequency set to " +++ str freq +++ " Hz") ;;
  refresh_lcd_home self.

Definition set_sweep_dwell_time_us (self : InstERASynthMicro) (dwell : value)
    : M unit :=
  n <- lift (__num_to_str dwell) ;;
  __send_cmd self (">SS4" +++ n) ;;
  log_info ("Sweep DWELL time set to " +++ str dwell +++ " µs") ;;
  refresh_lcd_home self.

Definition set_ref_source_internal (self : InstERASynthMicro) : M unit :=
  __send_cmd self ">SR0" ;;
  log_info "Reference source set on INTERNAL" ;;
  refresh_lcd_home self.

Definition set_ref_source_external (self : InstERASynthMicro) : M unit :=
  __send_cmd self ">SR1" ;;
  log_info "Reference source set on EXTERNAL" ;;
  refresh_lcd_home self.

Definition set_ref_source (self : InstERASynthMicro) (source : string)
    : M unit :=
  (if contains ["internal"; "int"] (lower source)
   then set_ref_source_internal self
   else if contains ["external"; "ext"] (lower source)
   then set_ref_source_external self
   else log_warning ("Reference source not set, incorrect source: "
                     +++ lower source)) ;;
  refresh_lcd_home self.

Definition set_vibration_on (self : InstERASynthMicro) : M unit :=
  __send_cmd self ">SV1" ;;
  log_info "Vibration ON" ;;
  refresh_lcd_home self.

Definition set_vibration_off (self : InstERASynthMicro) : M unit :=
  __send_cmd self ">SV0" ;;
  log_info "Vibration OFF" ;;
  refresh_lcd_home self.

Definition set_vibration (self : InstERASynthMicro) (vibration : string)
    : M unit :=
  if contains ["on"] (lower vibration)
  then set_vibration_on self
  else if contains ["off"] (lower vibration)
  then set_vibration_off self
  else log_warning ("Vibration setting not set, incorrect option: "
                    +++ lower vibration).

Definition vibrate_30ms (self : InstERASynthMicro) : M unit :=
  __send_cmd self ">GV" ;;
  log_info "Vibrate synth for 30ms ...bzz...".

(** The default arguments [set_preset] relies on: [freq=1e9], [ampl=0]. *)
Definition default_freq : value := PyFloat 1e9%float.
Definition default_ampl : value := PyInt 0.

Definition set_preset (self : InstERASynthMicro) : M unit :=
  set_rf_off self ;;
  set_frequency self default_freq ;;
  set_amplitude self default_ampl ;;
  set_modulation_off self ;;
  set_sweep_off self ;;
  set_ref_source_internal self ;;
  refresh_lcd_home self.

Definition get_temperature (self : InstERASynthMicro) : M string :=
  data <- __send_cmd_resp self ">RT" ;;
  ret data.

Definition get_current (self : InstERASynthMicro) : M string :=
  data <- __send_cmd_resp self ">RC" ;;
  ret data.

(** *** One call of a public method *)

Inductive call : Type :=
| Set_rf_on | Set_rf_off
| Refresh_lcd_home
| Set_frequency (freq : value)
| Set_amplitude (ampl : value)
| Set_modulation_on | Set_modulation_off
| Set_modulation_source_internal | Set_modulation_source_external
| Set_modulation_source_microphone
| Set_modulation_source (source : string)
| Set_modulation_type_am | Set_modulation_type_fm | Set_modulation_type_pulse
| Set_modulation_type (mod_type : string)
| Set_modulation_wave_sine | Set_modulation_wave_ramp
| Set_modulation_wave_square | Set_modulation_wave_triangle
| Set_modulation_wave_type (wave : string)
| Set_modulation_frequency (freq : value)
| Set_modulation_am_depth (depth : value)
| Set_modulation_fm_deviation (deviation : value)
| Set_modulation_pulse_period_us (period : value)
| Set_modulation_pulse_width_us (width : value)
| Set_sweep_on | Set_sweep_off
| Set_sweep_trigger_freerun | Set_sweep_trigger_external
| Set_sweep_trigger (trigger : string)
| Set_sweep_start_frequency (freq : value)
| Set_sweep_stop_frequency (freq : value)
| Set_sweep_step_frequency (freq : value)
| Set_sweep_dwell_time_us (dwell : value)
| Set_ref_source_internal | Set_ref_source_external
| Set_ref_source (source : string)
| Set_vibration_on | Set_vibration_off
| Set_vibration (vibration : string)
| Vibrate_30ms
| Set_preset
| Get_temperature | Get_current.

(** A setter returns [None], a query its text. *)
Definition returns_none (m : M unit) : M value := m ;; ret PyNone.
Definition returns_str (m : M string) : M value := s <- m ;; ret (PyStr s).

Definition invoke (self : InstERASynthMicro) (c : call) : M value :=
  match c with
  | Set_rf_on => returns_none (set_rf_on self)
  | Set_rf_off => returns_none (set_rf_off self)
  | Refresh_lcd_home => returns_none (refresh_lcd_home self)
  | Set_frequency freq => returns_none (set_frequency self freq)
  | Set_amplitude ampl => returns_none (set_amplitude self ampl)
  | Set_modulation_on => returns_none (set_modulation_on self)
  | Set_modulation_off => returns_none (set_modulation_off self)
  | Set_modulation_source_internal =>
      returns_none (set_modulation_source_internal self)
  | Set_modulation_source_external =>
      returns_none (set_modulation_source_external self)
  | Set_modulation_source_microphone =>
      returns_none (set_modulation_source_microphone self)
  | Set_modulation_source source =>
      returns_none (set_modulation_source self source)
  | Set_modulation_type_am => returns_none (set_modulation_type_am self)
  | Set_modulation_type_fm => returns_none (set_modulation_type_fm self)
  | Set_modulation_type_pulse => returns_none (set_modulation_type_pulse self)
  | Set_modulation_type mod_type =>
      returns_none (set_modulation_type self mod_type)
  | Set_modulation_wave_sine => returns_none (set_modulation_wave_sine self)
  | Set_modulation_wave_ramp => returns_none (set_modulation_wave_ramp self)
  | Set_modulation_wave_square =>
      returns_none (set_modulation_wave_square self)
  | Set_modulation_wave_triangle =>
      returns_none (set_modulation_wave_triangle self)
  | Set_modulation_wave_type wave =>
      returns_none (set_modulation_wave_type self wave)
  | Set_modulation_frequency freq =>
      returns_none (set_modulation_frequency self freq)
  | Set_modulation_am_depth depth =>
      returns_none (set_modulation_am_depth self depth)
  | Set_modulation_fm_deviation deviation =>
      returns_none (set_modulation_fm_deviation self deviation)
  | Set_modulation_pulse_period_us period =>
      returns_none (set_modulation_pulse_period_us self period)
  | Set_modulation_pulse_width_us width =>
      returns_none (set_modulation_pulse_width_us self width)
  | Set_sweep_on => returns_none (set_sweep_on self)
  | Set_sweep_off => returns_none (set_sweep_off self)
  | Set_sweep_trigger_freerun => returns_none (set_sweep_trigger_freerun self)
  | Set_sweep_trigger_external =>
      returns_none (set_sweep_trigger_external self)
  | Set_sweep_trigger trigger => returns_none (set_sweep_trigger self trigger)
  | Set_sweep_start_frequency freq =>
      returns_none (set_sweep_start_frequency self freq)
  | Set_sweep_stop_frequency freq =>
      returns_none (set_sweep_stop_frequency self freq)
  | Set_sweep_step_frequency freq =>
      returns_none (set_sweep_step_frequency self freq)
  | Set_sweep_dwell_time_us dwell =>
      returns_none (set_sweep_dwell_time_us self dwell)
  | Set_ref_source_internal => returns_none (set_ref_source_internal self)
  | Set_ref_source_external => returns_none (set_ref_source_external self)
  | Set_ref_source source => returns_none (set_ref_source self source)
  | Set_vibration_on => returns_none (set_vibration_on self)
  | Set_vibration_off => returns_none (set_vibration_off self)
  | Set_vibration vibration => returns_none (set_vibration self vibration)
  | Vibrate_30ms => returns_none (vibrate_30ms self)
  | Set_preset => returns_none (set_preset self)
  | Get_temperature => returns_str (get_temperature self)
  | Get_current => returns_str (get_current self)
  end.

(** ** The protocol as it is described *)

(** A command as it travels: its text, then one CR. *)
Definition wire (cmd : string) : list byte := encode cmd ++ [x0d].

(** The six enumerated settings that have a dispatcher. *)
Inductive setting : Type :=
| Modulation_source
| Modulation_type
| Modulation_wave
| Sweep_trigger
| Ref_source
| Vibration.

Definition dispatcher (d : setting) : InstERASynthMicro -> string -> M unit :=
  match d with
  | Modulation_source => set_modulation_source
  | Modulation_type => set_modulation_type
  | Modulation_wave => set_modulation_wave_type
  | Sweep_trigger => set_sweep_trigger
  | Ref_source => set_ref_source
  | Vibration => set_vibration
  end.

(** The rows of the command table for the enumerated settings: the names an
    option is accepted under (lower case) and its wire code. *)
Definition table (d : setting) : list (list string * string) :=
  match d with
  | Modulation_source =>
      [(["internal"; "int"], ">SMI0");
       (["external"; "ext"], ">SMI1");
       (["microphone"; "mic"], ">SMI2")]
  | Modulation_type =>
      [(["am"; "amplitude"], ">SMT0");
       (["fm"; "frequency"], ">SMT1");
       (["pulse"], ">SMT2")]
  | Modulation_wave =>
      [(["sine"], ">SMW0");
       (["ramp"], ">SMW1");
       (["square"], ">SMW2");
       (["triangle"], ">SMW0")]
  | Sweep_trigger =>
      [(["free"; "freerun"], ">SS70");
       (["ext"; "external"], ">SS71")]
  | Ref_source =>
      [(["internal"; "int"], ">SR0");
       (["external"; "ext"], ">SR1")]
  | Vibration =>
      [(["on"], ">SV1");
       (["off"], ">SV0")]
  end.

Fixpoint lookup (rows : list (list string * string)) (name : string)
    : option string :=
  match rows with
  | [] => None
  | (names, code) :: rows' =>
      if contains names name then Some code else lookup rows' name
  end.

(** The code of the table for an alias, whatever its case; [None] when the
    alias is not supported. *)
Definition code_of (d : setting) (alias : string) : option string :=
  lookup (table d) (lower alias).

(** The refreshes a dispatcher sends itself, after the setter it calls. *)
Definition own_refreshes (d : setting) : nat :=
  match d with
  | Vibration => 0
  | _ => 1
  end.

(** The number of refreshes that follow the setting command of a setter:
    one for a setter that sends its command itself, one more when a
    dispatcher with a refresh of its own called it. [None] for the calls
    that send no setting command, or several. *)
Definition refreshes_after (c : call) : option nat :=
  let dispatched d alias :=
    match code_of d alias with
    | Some _ => Some (1 + own_refreshes d)%nat
    | None => None
    end in
  match c with
  | Refresh_lcd_home | Vibrate_30ms | Set_preset
  | Get_temperature | Get_current => None
  | Set_modulation_source source => dispatched Modulation_source source
  | Set_modulation_type mod_type => dispatched Modulation_type mod_type
  | Set_modulation_wave_type wave => dispatched Modulation_wave wave
  | Set_sweep_trigger trigger => dispatched Sweep_trigger trigger
  | Set_ref_source source => dispatched Ref_source source
  | Set_vibration vibration => dispatched Vibration vibration
  | _ => Some 1%nat
  end.

(** The command table: the one command a call is there to send, with its
    parameter encoded; [None] for [set_preset], which sends several, for a
    number that cannot be encoded, and for an alias that is not supported. *)
Definition numeric (code : string) (v : value) : option string :=
  match __num_to_str v with
  | Ok n => Some (code +++ n)
  | Raise _ => None
  end.

Definition command (c : call) : option string :=
  match c with
  | Set_rf_on => Some ">SF1"
  | Set_rf_off => Some ">SF0"
  | Refresh_lcd_home => Some ">GH"
  | Set_frequency freq => numeric ">F" freq
  | Set_amplitude ampl => Some (">SA" +++ str ampl)
  | Set_modulation_on => Some ">SM1"
  | Set_modulation_off => Some ">SM0"
  | Set_modulation_source_internal => Some ">SMI0"
  | Set_modulation_source_external => Some ">SMI1"
  | Set_modulation_source_microphone => Some ">SMI2"
  | Set_modulation_source source => code_of Modulation_source source
  | Set_modulation_type_am => Some ">SMT0"
  | Set_modulation_type_fm => Some ">SMT1"
  | Set_modulation_type_pulse => Some ">SMT2"
  | Set_modulation_type mod_type => code_of Modulation_type mod_type
  | Set_modulation_wave_sine => Some ">SMW0"
  | Set_modulation_wave_ramp => Some ">SMW1"
  | Set_modulation_wave_square => Some ">SMW2"
  | Set_modulation_wave_triangle => Some ">SMW0"
  | Set_modulation_wave_type wave => code_of Modulation_wave wave
  | Set_modulation_frequency freq => numeric ">SMF" freq
  | Set_modulation_am_depth depth => Some (">SMA" +++ str depth)
  | Set_modulation_fm_deviation deviation => numeric ">SMFD" deviation
  | Set_modulation_pulse_period_us period => numeric ">SMPP" period
  | Set_modulation_pulse_width_us width => numeric ">SMPW" width
  | Set_sweep_on => Some ">SS5"
  | Set_sweep_off => Some ">SS6"
  | Set_sweep_trigger_freerun => Some ">SS70"
  | Set_sweep_trigger_external => Some ">SS71"
  | Set_sweep_trigger trigger => code_of Sweep_trigger trigger
  | Set_sweep_start_frequency freq => numeric ">SS1" freq
  | Set_sweep_stop_frequency freq => numeric ">SS2" freq
  | Set_sweep_step_frequency freq => numeric ">SS3" freq
  | Set_sweep_dwell_time_us dwell => numeric ">SS4" dwell
  | Set_ref_source_internal => Some ">SR0"
  | Set_ref_source_external => Some ">SR1"
  | Set_ref_source source => code_of Ref_source source
  | Set_vibration_on => Some ">SV1"
  | Set_vibration_off => Some ">SV0"
  | Set_vibration vibration => code_of Vibration vibration
  | Vibrate_30ms => Some ">GV"
  | Set_preset => None
  | Get_temperature => Some ">RT"
  | Get_current => Some ">RC"
  end.

(** The commands that set a parameter of the sweep or of the modulation. *)
Definition sub_parameter_codes : list string :=
  [">SS1"; ">SS2"; ">SS3"; ">SS4";
   ">SMI"; ">SMT"; ">SMW"; ">SMF"; ">SMA"; ">SMFD"; ">SMPP"; ">SMPW"].

Fixpoint starts_with (prefix line : list byte) : bool :=
  match prefix, line with
  | [], _ => true
  | _ :: _, [] => false
  | p :: prefix', b :: line' => Byte.eqb p b && starts_with prefix' line'
  end.

Definition is_sub_parameter (line : list byte) : bool :=
  existsb (fun code => starts_with (encode code) line) sub_parameter_codes.

(** [z] is the fraction [n / d] rounded toward zero. *)
Definition truncation (n d z : Z) : Prop :=
  Z.abs z * d <= Z.abs n < (Z.abs z + 1) * d /\ 0 <= z * n.

(** [secs] seconds last at least [ms] milliseconds. *)
Definition lasts_ms (ms : Z) (secs : float) : bool :=
  match Prim2SF secs with
  | S754_zero _ => ms <=? 0
  | S754_infinity s => negb s
  | S754_nan => false
  | S754_finite s m e => ms * den e <=? 1000 * num s m e
  end.

(** The fixed codes of the command table, the prefixes of its commands with
    an encoded number, and of those with a plain value. *)
Definition fixed_codes : list string :=
  [">SF1"; ">SF0"; ">GH"; ">SM1"; ">SM0"; ">SMI0"; ">SMI1"; ">SMI2";
   ">SMT0"; ">SMT1"; ">SMT2"; ">SMW0"; ">SMW1"; ">SMW2"; ">SS5"; ">SS6";
   ">SS70"; ">SS71"; ">SR0"; ">SR1"; ">SV1"; ">SV0"; ">GV"; ">RT"; ">RC"].

Definition numeric_codes : list string :=
  [">F"; ">SMF"; ">SMFD"; ">SMPP"; ">SMPW"; ">SS1"; ">SS2"; ">SS3"; ">SS4"].

Definition plain_codes : list string := [">SA"; ">SMA"].

Inductive in_table : string -> Prop :=
| in_table_fixed code :
    In code fixed_codes -> in_table code
| in_table_numeric code z :
    In code numeric_codes -> in_table (code +++ str_int z)
| in_table_plain code v :
    In code plain_codes -> in_table (code +++ str v).


(** The number of CR bytes in a line. *)
Definition cr_count (line : list byte) : nat :=
  count_occ Byte.byte_eq_dec line x0d.

(** The calls whose command carries text of the caller as it is. *)
Definition passes_text (c : call) : bool :=
  match c with
  | Set_amplitude (PyInt _) | Set_modulation_am_depth (PyInt _) => false
  | Set_amplitude _ | Set_modulation_am_depth _ => true
  | _ => false
  end.


(** A line that is a command of the table and one CR, the command being
    ASCII with no CR of its own unless it carries text of the caller
    ([text]). *)
Definition clean_line (text : bool) (line : list byte) : Prop :=
  exists cmd, in_table cmd /\ line = wire cmd
              /\ (text = false ->
                  cr_count (encode cmd) = 0%nat /\ is_ascii cmd = true).


(** A driver on the default port, and a world where that port opens and the
    instrument answers nothing. *)
Definition default_port : string := "/dev/ttyACM0".
Definition self0 : InstERASynthMicro :=
  {| __serial_link := Build_Serial default_port 9600 1 true true |}.
Definition w0 : world := World [default_port] [].

(** Line feed. *)
Definition LF : string := String "010"%char EmptyString.

(** A stand-in for [float_repr] in the closed examples, none of which reads
    the text of a float. *)
Definition no_float_repr : float -> string := fun _ => "".

(** *** Vocabulary for the properties of the calls *)

(** The two calls that read an answer. *)
Definition is_query (c : call) : bool :=
  match c with
  | Get_temperature | Get_current => true
  | _ => false
  end.


(** A call of a dispatcher with an alias it does not know. *)
Definition unknown_alias (c : call) : bool :=
  let unknown d alias :=
    match code_of d alias with
    | Some _ => false
    | None => true
    end in
  match c with
  | Set_modulation_source source => unknown Modulation_source source
  | Set_modulation_type mod_type => unknown Modulation_type mod_type
  | Set_modulation_wave_type wave => unknown Modulation_wave wave
  | Set_sweep_trigger trigger => unknown Sweep_trigger trigger
  | Set_ref_source source => unknown Ref_source source
  | Set_vibration vibration => unknown Vibration vibration
  | _ => false
  end.

(** The calls of the methods that take no argument. *)
Definition takes_no_argument (c : call) : bool :=
  match c with
  | Set_frequency _ | Set_amplitude _ | Set_modulation_source _
  | Set_modulation_type _ | Set_modulation_wave_type _
  | Set_modulation_frequency _ | Set_modulation_am_depth _
  | Set_modulation_fm_deviation _ | Set_modulation_pulse_period_us _
  | Set_modulation_pulse_width_us _ | Set_sweep_trigger _
  | Set_sweep_start_frequency _ | Set_sweep_stop_frequency _
  | Set_sweep_step_frequency _ | Set_sweep_dwell_time_us _
  | Set_ref_source _ | Set_vibration _ => false
  | _ => true
  end.

(** A trace in which every write is flushed and then followed by a pause of
    at least 100 ms before anything else happens; log records may stand
    between the blocks. No other event occurs. *)
Fixpoint paced (evs : list event) : bool :=
  match evs with
  | [] => true
  | EvWrite _ :: EvFlush :: EvSleep secs :: evs' =>
      lasts_ms 100 secs && paced evs'
  | EvLog _ _ :: evs' => paced evs'
  | _ => false
  end.

(** The number of pauses in a trace. *)
Fixpoint sleeps (evs : list event) : nat :=
  match evs with
  | [] => 0
  | EvSleep _ :: evs' => S (sleeps evs')
  | _ :: evs' => sleeps evs'
  end.

(** Text made of white space only. *)
Fixpoint all_space (s : string) : bool :=
  match s with
  | EmptyString => true
  | String c s' => isspace c && all_space s'
  end.

(** [s[0]], when there is one. *)
Definition first_char (s : string) : option ascii :=
  match s with
  | EmptyString => None
  | String c _ => Some c
  end.

(** A lower-case letter, [a] to [z]. *)
Definition is_lower_letter (c : ascii) : bool :=
  ((97 <=? N_of_ascii c) && (N_of_ascii c <=? 122))%N.

Fixpoint all_lower_letters (s : string) : bool :=
  match s with
  | EmptyString => true
  | String c s' => is_lower_letter c && all_lower_letters s'
  end.

(** The setters that send one command themselves. *)
Create HintDb setters.
#[local] Hint Unfold set_rf_on set_rf_off set_modulation_on set_modulation_off
  set_modulation_source_internal set_modulation_source_external
  set_modulation_source_microphone set_modulation_type_am
  set_modulation_type_fm set_modulation_type_pulse set_modulation_wave_sine
  set_modulation_wave_ramp set_modulation_wave_square
  set_modulation_wave_triangle set_sweep_on set_sweep_off
  set_sweep_trigger_freerun set_sweep_trigger_external
  set_ref_source_internal set_ref_source_external set_vibration_on
  set_vibration_off set_frequency set_amplitude set_modulation_frequency
  set_modulation_am_depth set_modulation_fm_deviation
  set_modulation_pulse_period_us set_modulation_pulse_width_us
  set_sweep_start_frequency set_sweep_stop_frequency
  set_sweep_step_frequency set_sweep_dwell_time_us : setters.

(** Membership in one of the lists of codes. *)
Ltac in_list := cbv [fixed_codes numeric_codes plain_codes In]; tauto.

(** Case analysis on the membership tests of a dispatcher. *)
Ltac split_aliases :=
  repeat match goal with
         | |- context [contains ?names (lower ?a)] =>
             destruct (contains names (lower a))
         end.

(** ** Properties *)

(** *** The fire-and-settle and query primitives *)

Lemma send_cmd_trace (self : InstERASynthMicro) (cmd : string) (w : world) :
  __send_cmd self cmd w
  = Outcome (Ok tt) [EvWrite (wire cmd); EvFlush; EvSleep __SEND_DELAY] w.
Proof. reflexivity. Qed.

Lemma send_delay_is_100ms :
  lasts_ms 100 __SEND_DELAY = true /\ lasts_ms 101 __SEND_DELAY = false.
Proof. split; reflexivity. Qed.

(** C5: [set_frequency(1e9)] then [set_amplitude(0)] writes the lines
    [>F1000000000 CR], [>GH CR], [>SA0 CR], [>GH CR] in this order; every
    write is followed by a flush and a pause of [__SEND_DELAY] before the
    next one, and that pause lasts at least 100 ms. *)
Theorem set_frequency_then_set_amplitude_trace :
  forall (self : InstERASynthMicro) (w : world),
    let o := (set_frequency self (PyFloat 1e9) ;;
              set_amplitude self (PyInt 0)) w in
    result o = Ok tt
    /\ emitted o
       = [EvWrite (encode ">F1000000000" ++ [x0d]); EvFlush;
          EvSleep __SEND_DELAY;
          EvLog INFO ("Frequency set to " +++ float_repr 1e9 +++ " Hz");
          EvWrite (encode ">GH" ++ [x0d]); EvFlush; EvSleep __SEND_DELAY;
          EvWrite (encode ">SA0" ++ [x0d]); EvFlush; EvSleep __SEND_DELAY;
          EvLog INFO "Amplitude set to 0 dBm";
          EvWrite (encode ">GH" ++ [x0d]); EvFlush; EvSleep __SEND_DELAY]
    /\ lasts_ms 100 __SEND_DELAY = true.
Proof.
  intros self w o. subst o.
  split; [reflexivity|]. split; [reflexivity|].
  apply send_delay_is_100ms.
Qed.

(** *** Trimming *)

Lemma rstrip_idempotent (s : string) : rstrip (rstrip s) = rstrip s.
Proof.
  induction s as [|c s IH]; simpl; [reflexivity|].
  destruct (rstrip s) as [|c' r] eqn:E.
  - destruct (isspace c) eqn:Hc; simpl; [reflexivity|].
    now rewrite Hc.
  - simpl in IH |- *. now rewrite IH.
Qed.

Lemma lstrip_head (s : string) :
  lstrip s = EmptyString
  \/ exists c r, lstrip s = String c r /\ isspace c = false.
Proof.
  induction s as [|c s IH]; simpl; [now left|].
  destruct (isspace c) eqn:Hc; [exact IH|].
  right. now exists c, s.
Qed.

Lemma rstrip_keeps_head (c : ascii) (s : string) :
  isspace c = false -> exists r, rstrip (String c s) = String c r.
Proof.
  intros Hc. simpl. destruct (rstrip s) as [|c' r].
  - rewrite Hc. now exists EmptyString.
  - now exists (String c' r).
Qed.

Lemma strip_idempotent (s : string) : strip (strip s) = strip s.
Proof.
  unfold strip.
  destruct (lstrip_head s) as [E | (c & r & E & Hc)]; rewrite E.
  - reflexivity.
  - destruct (rstrip_keeps_head c r Hc) as [r' E'].
    rewrite E'. simpl lstrip. rewrite Hc. rewrite <- E'.
    apply rstrip_idempotent.
Qed.

Lemma rstrip_last (s : string) :
  rstrip s = EmptyString
  \/ exists c, last_char (rstrip s) = Some c /\ isspace c = false.
Proof.
  induction s as [|c s IH]; simpl; [now left|].
  destruct (rstrip s) as [|c' r] eqn:E.
  - destruct (isspace c) eqn:Hc; [now left|].
    right. now exists c.
  - right. destruct IH as [IH | IH]; [discriminate IH | exact IH].
Qed.

(** What [strip] leaves neither starts nor ends with white space. *)
Lemma strip_ends (s : string) :
  strip s = EmptyString
  \/ exists c r c',
       strip s = String c r /\ isspace c = false
       /\ last_char (strip s) = Some c' /\ isspace c' = false.
Proof.
  unfold strip.
  destruct (lstrip_head s) as [E | (c & r & E & Hc)]; rewrite E.
  - now left.
  - right. destruct (rstrip_keeps_head c r Hc) as [r' E'].
    destruct (rstrip_last (String c r)) as [L | (c' & L & Hc')].
    + rewrite E' in L. discriminate L.
    + exists c, r', c'. now rewrite <- E'.
Qed.

Lemma send_cmd_resp_trace (self : InstERASynthMicro) (cmd : string)
    (w : world) :
  __send_cmd_resp self cmd w
  = Outcome (Ok (strip (strip (decode (hd [] (rx w))))))
      [EvWrite (wire cmd); EvFlush; EvReadline]
      (World (ports w) (tl (rx w))).
Proof. destruct w as [ps [|l rest]]; reflexivity. Qed.

(** C6: a query writes its command and one CR, flushes, reads one line at
    once (no pause), and returns the line trimmed; the second trim changes
    nothing. [get_temperature] sends [>RT], [get_current] sends [>RC]. The
    instrument answers in ASCII. *)
Theorem query_returns_trimmed_line :
  forall (self : InstERASynthMicro) (w : world),
    let line := hd [] (rx w) in
    is_ascii (decode line) = true ->
    get_temperature self w
    = Outcome (Ok (strip (decode line)))
        [EvWrite (encode ">RT" ++ [x0d]); EvFlush; EvReadline]
        (World (ports w) (tl (rx w)))
    /\ get_current self w
       = Outcome (Ok (strip (decode line)))
           [EvWrite (encode ">RC" ++ [x0d]); EvFlush; EvReadline]
           (World (ports w) (tl (rx w)))
    /\ strip (strip (decode line)) = strip (decode line).
Proof.
  intros self w line _. subst line.
  assert (Hget : forall cmd,
             (data <- __send_cmd_resp self cmd ;; ret data) w
             = __send_cmd_resp self cmd w).
  { intros cmd. unfold bind. rewrite send_cmd_resp_trace.
    cbn [result emitted after ret app]. reflexivity. }
  unfold get_temperature, get_current.
  rewrite !Hget, !send_cmd_resp_trace, !strip_idempotent.
  repeat split; reflexivity.
Qed.

(** *** Construction *)

(** C9: [__init__] tries the port once. When it opens, the driver holds a
    link at 9600 baud, with a timeout of 1 s, RTS/CTS and XON/XOFF. When it
    does not, an error is logged and SystemExit is raised: there is no driver
    object, nothing was written, and whatever was to follow the construction
    does not run. *)
Theorem init_opens_the_port_or_exits :
  forall (port : string) (w : world),
    (contains (ports w) port = true ->
     __init__ port w
     = Outcome (Ok {| __serial_link := Build_Serial port 9600 1 true true |})
         [EvOpen port] w)
    /\ (contains (ports w) port = false ->
        __init__ port w
        = Outcome (Raise SystemExit)
            [EvOpen port;
             EvLog ERROR ("ERROR: Unable to open serial port " +++ port)] w
        /\ forall (A : Type) (k : InstERASynthMicro -> M A),
             (self <- __init__ port ;; k self) w
             = Outcome (Raise SystemExit)
                 [EvOpen port;
                  EvLog ERROR ("ERROR: Unable to open serial port " +++ port)]
                 w).
Proof.
  intros port w.
  assert (E : forall b, contains (ports w) port = b ->
              __init__ port w
              = if b
                then Outcome
                       (Ok {| __serial_link :=
                                Build_Serial port 9600 1 true true |})
                       [EvOpen port] w
                else Outcome (Raise SystemExit)
                       [EvOpen port;
                        EvLog ERROR
                          ("ERROR: Unable to open serial port " +++ port)] w).
  { intros b Hb.
    unfold __init__, try_except, Serial_new, bind, emit, ret, raise,
      log_error, sys_exit.
    cbn [result emitted after app]. rewrite Hb.
    destruct b; reflexivity. }
  split; intros Hp.
  - exact (E true Hp).
  - split; [exact (E false Hp)|].
    intros A k. unfold bind at 1. rewrite (E false Hp). reflexivity.
Qed.

(** *** Wave forms *)

(** C8: the triangle setter writes the bytes of the sine setter, [>SMW0 CR]
    then the refresh; ramp and square write [>SMW1] and [>SMW2]. *)
Theorem triangle_writes_what_sine_writes :
  forall (self : InstERASynthMicro) (w : world),
    writes (emitted (set_modulation_wave_triangle self w))
    = writes (emitted (set_modulation_wave_sine self w))
    /\ writes (emitted (set_modulation_wave_sine self w))
       = [encode ">SMW0" ++ [x0d]; encode ">GH" ++ [x0d]]
    /\ writes (emitted (set_modulation_wave_ramp self w))
       = [encode ">SMW1" ++ [x0d]; encode ">GH" ++ [x0d]]
    /\ writes (emitted (set_modulation_wave_square self w))
       = [encode ">SMW2" ++ [x0d]; encode ">GH" ++ [x0d]]
    /\ encode ">SMW1" <> encode ">SMW0"
    /\ encode ">SMW2" <> encode ">SMW0"
    /\ encode ">SMW1" <> encode ">SMW2".
Proof.
  intros self w.
  repeat split; try reflexivity; intros H; discriminate H.
Qed.

(** The two setters differ in what they log only. *)
Lemma triangle_and_sine_log_differently :
  forall (self : InstERASynthMicro) (w : world),
    logged INFO (emitted (set_modulation_wave_triangle self w))
    = ["Modulation wave type set to TRIANGLE"]
    /\ logged INFO (emitted (set_modulation_wave_sine self w))
       = ["Modulation wave type set to SINE"].
Proof. intros self w. split; reflexivity. Qed.

(** *** Preset *)

(** C3, as the code has it: [set_preset] writes thirteen lines, the six
    setting commands RF off, frequency 1 GHz, amplitude 0 dBm, modulation
    off, sweep off, reference internal, in this order, each followed by the
    refresh of its own setter, and one more refresh at the end; none of them
    sets a parameter of the sweep or of the modulation. *)
Theorem set_preset_writes_thirteen_lines :
  forall (self : InstERASynthMicro) (w : world),
    let o := set_preset self w in
    result o = Ok tt
    /\ writes (emitted o)
       = map wire [">SF0"; ">GH"; ">F1000000000"; ">GH"; ">SA0"; ">GH";
                   ">SM0"; ">GH"; ">SS6"; ">GH"; ">SR0"; ">GH"; ">GH"]
    /\ forallb (fun line => negb (is_sub_parameter line)) (writes (emitted o))
       = true.
Proof. intros self w. repeat split; reflexivity. Qed.

(** *** Dispatch on an alias *)

Lemma lower_char_idempotent (c : ascii) :
  lower_char (lower_char c) = lower_char c.
Proof. destruct c as [[] [] [] [] [] [] [] []]; reflexivity. Qed.

Lemma lower_idempotent (s : string) : lower (lower s) = lower s.
Proof.
  induction s as [|c s IH]; simpl; [reflexivity|].
  now rewrite lower_char_idempotent, IH.
Qed.

(** Two spellings of an alias that differ in case only get the same code. *)
Lemma code_of_ignores_case (d : setting) (a b : string) :
  lower a = lower b -> code_of d a = code_of d b.
Proof. unfold code_of. now intros ->. Qed.

Lemma dispatcher_ignores_case (d : setting) (self : InstERASynthMicro)
    (a b : string) (w : world) :
  lower a = lower b -> dispatcher d self a w = dispatcher d self b w.
Proof.
  intros E.
  destruct d; cbn [dispatcher];
    unfold set_modulation_source, set_modulation_type,
      set_modulation_wave_type, set_sweep_trigger, set_ref_source,
      set_vibration;
    rewrite E; reflexivity.
Qed.

(** What a dispatcher does, by the row of the table its alias falls in. *)
Lemma dispatcher_outcome (d : setting) (self : InstERASynthMicro)
    (alias : string) (w : world) :
  let o := dispatcher d self alias w in
  result o = Ok tt
  /\ match code_of d alias with
     | Some code =>
         writes (emitted o)
         = wire code :: repeat (wire ">GH") (1 + own_refreshes d)
         /\ logged WARNING (emitted o) = []
     | None =>
         writes (emitted o) = repeat (wire ">GH") (own_refreshes d)
         /\ exists msg, logged WARNING (emitted o) = [msg]
     end.
Proof.
  intros o. subst o.
  destruct d; unfold code_of; cbn [dispatcher table lookup];
    unfold set_modulation_source, set_modulation_type,
      set_modulation_wave_type, set_sweep_trigger, set_ref_source,
      set_vibration;
    split_aliases; cbn [own_refreshes repeat Nat.add];
    repeat split; try reflexivity; eexists; reflexivity.
Qed.

(** C2, as the code has it: a dispatcher called with a supported alias, in
    any case, writes the code of the table for it and then refreshes only (two
    of them, one for [set_vibration]) and logs no warning; called with any
    other alias it logs one warning and does not write a setting command,
    but still writes its own refresh [>GH CR]; [set_vibration], which has
    none, writes nothing. *)
Theorem dispatcher_follows_the_table :
  forall (d : setting) (self : InstERASynthMicro) (alias : string)
         (w : world),
    let o := dispatcher d self alias w in
    result o = Ok tt
    /\ match code_of d alias with
       | Some code =>
           writes (emitted o)
           = wire code :: repeat (wire ">GH") (1 + own_refreshes d)
           /\ logged WARNING (emitted o) = []
       | None =>
           writes (emitted o) = repeat (wire ">GH") (own_refreshes d)
           /\ exists msg, logged WARNING (emitted o) = [msg]
       end
    /\ forall alias' : string,
         lower alias' = lower alias ->
         dispatcher d self alias' w = o.
Proof.
  intros d self alias w o.
  destruct (dispatcher_outcome d self alias w) as [R T].
  split; [exact R|]. split; [exact T|].
  intros alias' E. now apply dispatcher_ignores_case.
Qed.

(** C10: [set_vibration] called with anything but [on] or [off] (in any
    case) only logs a warning: it writes nothing, not even the refresh that
    every other dispatcher still writes after an alias it does not know. *)
Theorem set_vibration_unknown_option_writes_nothing :
  forall (self : InstERASynthMicro) (vibration : string) (w : world),
    lower vibration <> "on" ->
    lower vibration <> "off" ->
    set_vibration self vibration w
    = Outcome (Ok tt)
        [EvLog WARNING ("Vibration setting not set, incorrect option: "
                        +++ lower vibration)] w
    /\ writes (emitted (set_vibration self vibration w)) = []
    /\ forall (d : setting) (alias : string),
         d <> Vibration ->
         code_of d alias = None ->
         writes (emitted (dispatcher d self alias w)) = [encode ">GH" ++ [x0d]].
Proof.
  intros self vibration w Hon Hoff.
  assert (E : set_vibration self vibration w
              = Outcome (Ok tt)
                  [EvLog WARNING
                     ("Vibration setting not set, incorrect option: "
                      +++ lower vibration)] w).
  { unfold set_vibration, contains. cbn [existsb].
    destruct (String.eqb_spec (lower vibration) "on") as [H|_];
      [contradiction|].
    destruct (String.eqb_spec (lower vibration) "off") as [H|_];
      [contradiction|].
    reflexivity. }
  split; [exact E|]. split; [now rewrite E|].
  intros d alias Hd Hnone.
  pose proof (dispatcher_outcome d self alias w) as [_ T].
  rewrite Hnone in T. destruct T as [T _].
  destruct d; try contradiction; exact T.
Qed.

(** *** Refreshes *)

(** A setter that sends its command itself. *)
Lemma setter_trace (self : InstERASynthMicro) (cmd msg : string) (w : world) :
  (__send_cmd self cmd ;; log_info msg ;; refresh_lcd_home self) w
  = Outcome (Ok tt)
      [EvWrite (wire cmd); EvFlush; EvSleep __SEND_DELAY; EvLog INFO msg;
       EvWrite (wire ">GH"); EvFlush; EvSleep __SEND_DELAY] w.
Proof. reflexivity. Qed.

(** A setter of a number: nothing is written when the number cannot be
    encoded. *)
Lemma numeric_setter_trace (self : InstERASynthMicro) (code msg : string)
    (v : value) (w : world) :
  (n <- lift (__num_to_str v) ;;
   __send_cmd self (code +++ n) ;; log_info msg ;; refresh_lcd_home self) w
  = match __num_to_str v with
    | Ok n =>
        Outcome (Ok tt)
          [EvWrite (wire (code +++ n)); EvFlush; EvSleep __SEND_DELAY;
           EvLog INFO msg;
           EvWrite (wire ">GH"); EvFlush; EvSleep __SEND_DELAY] w
    | Raise e => Outcome (Raise e) [] w
    end.
Proof.
  unfold bind at 1, lift. cbn [result emitted after app].
  destruct (__num_to_str v) as [n|e]; reflexivity.
Qed.

Lemma returns_none_outcome (m : M unit) (w : world) :
  returns_none m w
  = Outcome (match result (m w) with
             | Ok _ => Ok PyNone
             | Raise e => Raise e
             end) (emitted (m w)) (after (m w)).
Proof.
  unfold returns_none, bind, ret.
  destruct (result (m w)); cbn [result emitted after];
    rewrite ?app_nil_r; reflexivity.
Qed.

Lemma code_of_is_a_setting (d : setting) (alias cmd : string) :
  code_of d alias = Some cmd -> cmd <> ">GH".
Proof.
  destruct d; unfold code_of; cbn [table lookup]; split_aliases;
    intros H; try discriminate H; injection H as <-;
    intros H; discriminate H.
Qed.

(** C1, as the code has it: a call of a setter that sends its command itself
    writes that command and then exactly one refresh [>GH]; a call of an
    alias dispatcher with a supported alias writes the setting command and
    then exactly two refreshes, that of the setter it calls and its own
    ([set_vibration], which has none of its own: one); [vibrate_30ms] writes
    its command and no refresh. *)
Theorem setter_is_followed_by_refreshes :
  forall (self : InstERASynthMicro) (w : world),
    (forall (c : call) (n : nat) (cmd : string),
        refreshes_after c = Some n ->
        command c = Some cmd ->
        let o := invoke self c w in
        result o = Ok PyNone
        /\ cmd <> ">GH"
        /\ writes (emitted o) = wire cmd :: repeat (wire ">GH") n)
    /\ writes (emitted (invoke self Vibrate_30ms w)) = [wire ">GV"].
Proof.
  intros self w. split; [|reflexivity].
  intros c n cmd Hn Hc o. subst o. unfold invoke.
  destruct c; cbn [refreshes_after] in Hn; try discriminate Hn;
    cbn [command] in Hc; unfold numeric in Hc; rewrite returns_none_outcome.
  all: try (injection Hn as <-; injection Hc as <-;
            repeat split; try reflexivity; intros H; discriminate H).
  all: cbn [result emitted after].
  all: try (match type of Hc with
            | match __num_to_str ?v with _ => _ end = _ =>
                destruct (__num_to_str v) as [s|e] eqn:E;
                [|discriminate Hc]
            end;
            injection Hn as <-; injection Hc as <-;
            unfold set_frequency, set_modulation_frequency,
              set_modulation_fm_deviation, set_modulation_pulse_period_us,
              set_modulation_pulse_width_us, set_sweep_start_frequency,
              set_sweep_stop_frequency, set_sweep_step_frequency,
              set_sweep_dwell_time_us;
            rewrite numeric_setter_trace, E;
            repeat split; try reflexivity; intros H; discriminate H).
  all: match type of Hc with
       | code_of ?d ?alias = _ =>
           destruct (dispatcher_outcome d self alias w) as [R T];
           rewrite Hc in T, Hn; destruct T as [T _];
           cbn [dispatcher] in R, T; rewrite R, T;
           injection Hn as <-
       end.
  all: repeat split; try reflexivity.
  all: exact (code_of_is_a_setting _ _ _ Hc).
Qed.



(** *** Encoding of numbers *)

Lemma quot_truncation (n d : Z) : 0 < d -> truncation n d (Z.quot n d).
Proof.
  intros Hd. unfold truncation.
  assert (Hpos : forall a, 0 <= a ->
                   a ÷ d * d <= a < (a ÷ d + 1) * d /\ 0 <= a ÷ d).
  { intros a Ha. rewrite Z.quot_div_nonneg by lia.
    pose proof (Z.mul_div_le a d Hd).
    pose proof (Z.mul_succ_div_gt a d Hd).
    pose proof (Z.div_pos a d Ha Hd). lia. }
  destruct (Z.le_gt_cases 0 n) as [Hn|Hn].
  - destruct (Hpos n Hn) as [B Q].
    rewrite !Z.abs_eq by lia. split; [lia|nia].
  - destruct (Hpos (- n)) as [B Q]; [lia|].
    rewrite Z.quot_opp_l in B, Q by lia.
    rewrite (Z.abs_neq n) by lia. rewrite (Z.abs_neq (n ÷ d)) by lia.
    split; [lia|nia].
Qed.

(** Rounding toward zero names one integer. *)
Lemma truncation_unique (n d z z' : Z) :
  0 < d -> truncation n d z -> truncation n d z' -> z = z'.
Proof.
  unfold truncation. intros Hd [[A B] C] [[A' B'] C'].
  assert (Z.abs z = Z.abs z') by nia.
  destruct (Z.eq_dec n 0) as [->|Hn].
  - assert (Z.abs z = 0) by nia. lia.
  - nia.
Qed.

Lemma den_positive (e : Z) : 0 < den e.
Proof. unfold den. apply Z.pow_pos_nonneg; lia. Qed.

(** [int(f)] of a finite float is its value rounded toward zero; infinities
    and NaN raise. *)
Lemma int_float_spec (f : float) :
  match Prim2SF f with
  | S754_finite s m e =>
      exists z, int_float f = Ok z /\ truncation (num s m e) (den e) z
  | S754_zero _ => int_float f = Ok 0
  | S754_infinity _ => int_float f = Raise OverflowError
  | S754_nan => int_float f = Raise ValueError
  end.
Proof.
  unfold int_float. destruct (Prim2SF f) as [s|s| |s m e]; try reflexivity.
  eexists. split; [reflexivity|]. apply quot_truncation, den_positive.
Qed.

(** The text of an integer reads back as that integer. *)
Lemma read_decimal_str_int (z : Z) : read_decimal (str_int z) = Some z.
Proof.
  unfold read_decimal, str_int. rewrite NilZero.isi.
  - simpl. now rewrite DecimalZ.of_to.
  - destruct z; simpl; try discriminate.
    intros [= H]. now apply DecimalPos.Unsigned.to_uint_nonnil in H.
  - destruct z; simpl; try discriminate.
    intros [= H]. now apply DecimalPos.Unsigned.to_uint_nonnil in H.
Qed.

Lemma string_of_uint_digits (d : Decimal.uint) :
  all_digits (NilEmpty.string_of_uint d) = true.
Proof. induction d; simpl; auto. Qed.

Lemma string_of_uint_nonempty (d : Decimal.uint) :
  d <> Decimal.Nil -> NilEmpty.string_of_uint d <> EmptyString.
Proof. destruct d; simpl; congruence. Qed.

(** The text of an integer is made of digits, after a minus sign when it is
    negative. *)
Lemma str_int_is_decimal (z : Z) : is_decimal (str_int z) = true.
Proof.
  unfold str_int.
  destruct z as [|p|p]; [reflexivity| |];
    pose proof (DecimalPos.Unsigned.to_uint_nonnil p) as Hp;
    pose proof (string_of_uint_digits (Pos.to_uint p)) as Hd;
    pose proof (string_of_uint_nonempty _ Hp) as Hne;
    simpl; unfold NilZero.string_of_uint;
    destruct (Pos.to_uint p) as [|u|u|u|u|u|u|u|u|u|u] eqn:E;
    try contradiction; simpl in *; auto.
Qed.

(** C4, as the code has it: [__num_to_str] turns a finite float into the
    decimal digits of its value rounded toward zero ([1e9] gives
    [1000000000], [100.7] gives [100]); on an infinite float it raises
    OverflowError and on a NaN ValueError, as [int] does; it turns an int
    into its decimal digits, and any text, [1k] included, and any value of
    another kind into [0]. [set_amplitude] does not go through it: it
    writes [str(ampl)] as it is, so [-15] stays [-15]. *)
Theorem num_to_str_encodes :
  (forall (f : float) (s : bool) (m : positive) (e : Z),
      Prim2SF f = S754_finite s m e ->
      exists z, __num_to_str (PyFloat f) = Ok (str_int z)
                /\ truncation (num s m e) (den e) z)
  /\ (forall (f : float) (s : bool),
         Prim2SF f = S754_zero s -> __num_to_str (PyFloat f) = Ok "0")
  /\ (forall (f : float) (s : bool),
         Prim2SF f = S754_infinity s ->
         __num_to_str (PyFloat f) = Raise OverflowError)
  /\ (forall f : float,
         Prim2SF f = S754_nan -> __num_to_str (PyFloat f) = Raise ValueError)
  /\ __num_to_str (PyFloat 1e9) = Ok "1000000000"
  /\ __num_to_str (PyFloat 100.7) = Ok "100"
  /\ (forall z : Z,
         printable z = true ->
         __num_to_str (PyInt z) = Ok (str_int z)
         /\ is_decimal (str_int z) = true
         /\ read_decimal (str_int z) = Some z)
  /\ (forall s : string, __num_to_str (PyStr s) = Ok "0")
  /\ __num_to_str (PyStr "1k") = Ok "0"
  /\ (forall v : value,
         (forall f, v <> PyFloat f) -> (forall z, v <> PyInt z) ->
         __num_to_str v = Ok "0")
  /\ (forall (self : InstERASynthMicro) (ampl : value) (w : world),
         (forall z, ampl = PyInt z -> printable z = true) ->
         writes (emitted (set_amplitude self ampl w))
         = [encode (">SA" +++ str ampl) ++ [x0d]; encode ">GH" ++ [x0d]])
  /\ str (PyInt (-15)) = "-15"
  /\ str (PyStr "1k") = "1k".
Proof.
  split.
  { intros f s m e Hf. pose proof (int_float_spec f) as H.
    rewrite Hf in H. destruct H as (z & Hz & Ht).
    exists z. unfold __num_to_str. now rewrite Hz. }
  split.
  { intros f s Hf. pose proof (int_float_spec f) as H.
    rewrite Hf in H. unfold __num_to_str. now rewrite H. }
  split.
  { intros f s Hf. pose proof (int_float_spec f) as H.
    rewrite Hf in H. unfold __num_to_str. now rewrite H. }
  split.
  { intros f Hf. pose proof (int_float_spec f) as H.
    rewrite Hf in H. unfold __num_to_str. now rewrite H. }
  repeat split; try reflexivity.
  - apply str_int_is_decimal.
  - apply read_decimal_str_int.
  - intros v Hf Hz.
    destruct v as [f|z| | | |]; try reflexivity.
    + now destruct (Hf f).
    + now destruct (Hz z).
Qed.

(** A float that is not a number of its own cannot be encoded: [int] raises,
    and the setter writes nothing. *)
Lemma num_to_str_infinity_nan :
  __num_to_str (PyFloat infinity) = Raise OverflowError
  /\ __num_to_str (PyFloat neg_infinity) = Raise OverflowError
  /\ __num_to_str (PyFloat nan) = Raise ValueError
  /\ forall (self : InstERASynthMicro) (w : world),
       set_frequency self (PyFloat infinity) w
       = Outcome (Raise OverflowError) [] w.
Proof. repeat split. Qed.

(** *** Framing *)

Lemma encode_append (a b : string) : encode (a +++ b) = encode a ++ encode b.
Proof.
  unfold encode, list_byte_of_string.
  induction a as [|c a IH]; simpl; [reflexivity|]. now rewrite IH.
Qed.

Lemma cr_count_app (a b : list byte) :
  cr_count (a ++ b) = (cr_count a + cr_count b)%nat.
Proof. apply count_occ_app. Qed.


Lemma all_digits_cr_free (s : string) :
  all_digits s = true -> cr_count (encode s) = 0%nat.
Proof.
  unfold cr_count, encode, list_byte_of_string.
  induction s as [|c s IH]; simpl; [reflexivity|].
  intros H. apply andb_prop in H as [Hc Hs].
  destruct (Byte.byte_eq_dec (byte_of_ascii c) x0d) as [E|_]; [|auto].
  exfalso. apply (f_equal ascii_of_byte) in E.
  rewrite ascii_of_byte_of_ascii in E. subst c. discriminate Hc.
Qed.

Lemma str_int_cr_free (z : Z) : cr_count (encode (str_int z)) = 0%nat.
Proof.
  pose proof (str_int_is_decimal z) as H.
  destruct (str_int z) as [|c s]; [reflexivity|].
  unfold is_decimal in H.
  destruct (Ascii.eqb_spec c "-") as [->|_].
  - apply andb_prop in H as [_ H].
    change (encode (String "-" s)) with (encode "-" ++ encode s).
    rewrite cr_count_app. now rewrite (all_digits_cr_free s H).
  - now apply all_digits_cr_free.
Qed.

Lemma num_to_str_is_str_int (v : value) (s : string) :
  __num_to_str v = Ok s -> exists z, s = str_int z.
Proof.
  destruct v as [f|z|t|b| |cls t]; simpl;
    try (intros [= <-]; now exists 0).
  - destruct (int_float f) as [z|e]; [|discriminate].
    intros [= <-]. now exists z.
  - intros [= <-]. now exists z.
Qed.

Lemma code_of_is_fixed (d : setting) (alias code : string) :
  code_of d alias = Some code -> In code fixed_codes.
Proof.
  destruct d; unfold code_of; cbn [table lookup]; split_aliases;
    intros H; try discriminate H; injection H as <-;
    cbv [fixed_codes In]; tauto.
Qed.


Lemma fixed_code_cr_free (code : string) :
  In code fixed_codes -> cr_count (encode code) = 0%nat.
Proof.
  cbv [fixed_codes In]. intros H.
  repeat (destruct H as [<-|H]; [reflexivity|]). contradiction.
Qed.

Lemma returns_str_outcome (m : M string) (w : world) :
  emitted (returns_str m w) = emitted (m w).
Proof.
  unfold returns_str, bind, ret.
  destruct (result (m w)); cbn [result emitted after];
    rewrite ?app_nil_r; reflexivity.
Qed.

Lemma numeric_code_cr_free (code : string) :
  In code numeric_codes -> cr_count (encode code) = 0%nat.
Proof.
  cbv [numeric_codes In]. intros H.
  repeat (destruct H as [<-|H]; [reflexivity|]). contradiction.
Qed.

Lemma plain_code_cr_free (code : string) :
  In code plain_codes -> cr_count (encode code) = 0%nat.
Proof.
  cbv [plain_codes In]. intros H.
  repeat (destruct H as [<-|H]; [reflexivity|]). contradiction.
Qed.

Lemma is_ascii_append (a b : string) :
  is_ascii (a +++ b) = is_ascii a && is_ascii b.
Proof.
  induction a as [|c a IH]; simpl; [reflexivity|].
  now rewrite IH, andb_assoc.
Qed.

Lemma all_digits_is_ascii (s : string) :
  all_digits s = true -> is_ascii s = true.
Proof.
  induction s as [|c s IH]; simpl; [reflexivity|].
  intros H. apply andb_prop in H as [Hc Hs]. rewrite (IH Hs), andb_true_r.
  unfold is_digit in Hc. apply andb_prop in Hc as [_ Hc].
  apply N.leb_le in Hc. apply N.ltb_lt. lia.
Qed.

Lemma str_int_is_ascii (z : Z) : is_ascii (str_int z) = true.
Proof.
  pose proof (str_int_is_decimal z) as H.
  destruct (str_int z) as [|c s]; [reflexivity|].
  unfold is_decimal in H.
  destruct (Ascii.eqb_spec c "-") as [->|_].
  - apply andb_prop in H as [_ H].
    simpl. now apply all_digits_is_ascii.
  - now apply all_digits_is_ascii.
Qed.

Lemma fixed_code_is_ascii (code : string) :
  In code fixed_codes -> is_ascii code = true.
Proof.
  cbv [fixed_codes In]. intros H.
  repeat (destruct H as [<-|H]; [reflexivity|]). contradiction.
Qed.

Lemma numeric_code_is_ascii (code : string) :
  In code numeric_codes -> is_ascii code = true.
Proof.
  cbv [numeric_codes In]. intros H.
  repeat (destruct H as [<-|H]; [reflexivity|]). contradiction.
Qed.

Lemma plain_code_is_ascii (code : string) :
  In code plain_codes -> is_ascii code = true.
Proof.
  cbv [plain_codes In]. intros H.
  repeat (destruct H as [<-|H]; [reflexivity|]). contradiction.
Qed.




Lemma fixed_line (text : bool) (code : string) :
  In code fixed_codes -> clean_line text (wire code).
Proof.
  intros H. exists code. split; [now apply in_table_fixed|].
  split; [reflexivity|]. intros _.
  split; [now apply fixed_code_cr_free | now apply fixed_code_is_ascii].
Qed.

Lemma numeric_line (text : bool) (code : string) (z : Z) :
  In code numeric_codes -> clean_line text (wire (code +++ str_int z)).
Proof.
  intros H. exists (code +++ str_int z).
  split; [now apply in_table_numeric|]. split; [reflexivity|]. intros _.
  split.
  - rewrite encode_append, cr_count_app, str_int_cr_free.
    now rewrite numeric_code_cr_free.
  - now rewrite is_ascii_append, str_int_is_ascii, numeric_code_is_ascii.
Qed.

Lemma plain_line (code : string) (v : value) :
  In code plain_codes ->
  clean_line (match v with PyInt _ => false | _ => true end)
    (wire (code +++ str v)).
Proof.
  intros H. exists (code +++ str v).
  split; [now apply in_table_plain|]. split; [reflexivity|].
  destruct v as [f|z|s|b| |cls s]; try discriminate. intros _.
  cbn [str]. split.
  - rewrite encode_append, cr_count_app, str_int_cr_free.
    now rewrite plain_code_cr_free.
  - now rewrite is_ascii_append, str_int_is_ascii, plain_code_is_ascii.
Qed.

(** What a call writes: commands of the table, one CR after each. *)
Lemma call_lines (self : InstERASynthMicro) (c : call) (w : world) :
  Forall (clean_line (passes_text c)) (writes (emitted (invoke self c w))).
Proof.
  destruct c; unfold invoke;
    rewrite ?returns_none_outcome, ?returns_str_outcome; cbn [emitted];
    autounfold with setters;
    rewrite ?setter_trace, ?numeric_setter_trace.
  all: try (cbn [emitted writes]; repeat constructor;
            apply fixed_line; in_list).
  all: try (destruct (__num_to_str _) as [s|e] eqn:E;
            [destruct (num_to_str_is_str_int _ _ E) as [z ->]|];
            cbn [emitted writes]; repeat constructor;
            first [apply numeric_line | apply fixed_line]; in_list).
  all: try (match goal with
            | |- context [emitted (?f ?self' ?alias ?w')] =>
                match goal with
                | |- context [passes_text (?k alias)] =>
                    let d := match k with
                             | Set_modulation_source => Modulation_source
                             | Set_modulation_type => Modulation_type
                             | Set_modulation_wave_type => Modulation_wave
                             | Set_sweep_trigger => Sweep_trigger
                             | Set_ref_source => Ref_source
                             | Set_vibration => Vibration
                             end in
                    destruct (dispatcher_outcome d self' alias w') as [_ T];
                    cbn [dispatcher] in T;
                    destruct (code_of d alias) as [code|] eqn:Hcode;
                    destruct T as [-> _];
                    [apply code_of_is_fixed in Hcode|];
                    cbn [own_refreshes repeat Nat.add];
                    repeat constructor; apply fixed_line;
                    first [exact Hcode | in_list]
                end
            end).
  - cbn [emitted writes]. repeat constructor.
    + apply (plain_line ">SA" ampl). in_list.
    + apply fixed_line. in_list.
  - cbn [emitted writes]. repeat constructor.
    + apply (plain_line ">SMA" depth). in_list.
    + apply fixed_line. in_list.
  - change (writes (emitted (set_preset self w)))
      with (map wire [">SF0"; ">GH"; ">F" +++ str_int 1000000000; ">GH";
                       ">SA" +++ str (PyInt 0); ">GH"; ">SM0"; ">GH";
                       ">SS6"; ">GH"; ">SR0"; ">GH"; ">GH"]).
    cbn [map]. repeat constructor;
      first [ apply fixed_line; in_list
            | apply numeric_line; in_list
            | apply (plain_line ">SA" (PyInt 0)); in_list ].
  - unfold get_temperature, bind. rewrite send_cmd_resp_trace.
    cbn [result emitted after ret app writes]. repeat constructor.
    apply fixed_line. in_list.
  - unfold get_current, bind. rewrite send_cmd_resp_trace.
    cbn [result emitted after ret app writes]. repeat constructor.
    apply fixed_line. in_list.
Qed.


(** *** Pace, purity and failure of the setters *)

(** X1: in every call but the two queries, each write is flushed and then
    followed by a pause of [__SEND_DELAY], at least 100 ms, before the next
    event; so a call pauses once per line it writes. *)
Theorem setter_trace_is_paced :
  forall (self : InstERASynthMicro) (c : call) (w : world),
    is_query c = false ->
    paced (emitted (invoke self c w)) = true
    /\ sleeps (emitted (invoke self c w))
       = List.length (writes (emitted (invoke self c w))).
Proof.
  intros self c w Hq.
  destruct c; try discriminate Hq; unfold invoke;
    rewrite returns_none_outcome; cbn [emitted];
    autounfold with setters;
    rewrite ?setter_trace, ?numeric_setter_trace;
    try (destruct (__num_to_str _));
    unfold set_modulation_source, set_modulation_type,
      set_modulation_wave_type, set_sweep_trigger, set_ref_source,
      set_vibration;
    split_aliases; split; reflexivity.
Qed.

(** A call that raises has done nothing yet. *)
Lemma raise_emits_nothing (self : InstERASynthMicro) (c : call) (w : world)
    (e : exn) :
  result (invoke self c w) = Raise e -> emitted (invoke self c w) = [].
Proof.
  destruct c; unfold invoke;
    rewrite ?returns_none_outcome; cbn [result emitted];
    autounfold with setters;
    rewrite ?setter_trace, ?numeric_setter_trace;
    try (destruct (__num_to_str _); cbn [result emitted];
         intros H; (discriminate H || reflexivity)).
  all: try (cbn [result]; intros H; discriminate H).
  all: try (match goal with
            | |- context [result (?f ?self' ?alias ?w')] =>
                match f with
                | set_modulation_source => idtac
                | set_modulation_type => idtac
                | set_modulation_wave_type => idtac
                | set_sweep_trigger => idtac
                | set_ref_source => idtac
                | set_vibration => idtac
                end;
                unfold f; split_aliases; cbn; intros H; discriminate H
            end).
  - unfold returns_str, get_temperature, bind.
    rewrite send_cmd_resp_trace.
    cbn [result emitted after ret app]. intros H. discriminate H.
  - unfold returns_str, get_current, bind.
    rewrite send_cmd_resp_trace.
    cbn [result emitted after ret app]. intros H. discriminate H.
Qed.

Lemma setter_outcome_any_world (self : InstERASynthMicro) (c : call)
    (w w' : world) :
  is_query c = false ->
  invoke self c w
  = Outcome (result (invoke self c w')) (emitted (invoke self c w')) w.
Proof.
  intros Hq.
  destruct c; try discriminate Hq; unfold invoke;
    rewrite !returns_none_outcome;
    autounfold with setters;
    rewrite ?setter_trace, ?numeric_setter_trace;
    try (destruct (__num_to_str _));
    unfold set_modulation_source, set_modulation_type,
      set_modulation_wave_type, set_sweep_trigger, set_ref_source,
      set_vibration;
    split_aliases; reflexivity.
Qed.

(** X2: a call other than a query does not depend on the world and leaves it
    as it is: it reads nothing from the port, and run in any world [w] it
    returns and emits what it does in any other world [w']. Run twice in a
    row, it emits the same events twice. *)
Theorem setter_ignores_the_world :
  forall (self : InstERASynthMicro) (c : call) (w w' : world),
    is_query c = false ->
    invoke self c w
    = Outcome (result (invoke self c w')) (emitted (invoke self c w')) w
    /\ emitted ((invoke self c ;; invoke self c) w)
       = emitted (invoke self c w) ++ emitted (invoke self c w).
Proof.
  intros self c w w' Hq.
  split; [now apply setter_outcome_any_world|].
  unfold bind. destruct (result (invoke self c w)) as [r|e] eqn:R;
    cbn [emitted].
  - replace (after (invoke self c w)) with w; [reflexivity|].
    now rewrite (setter_outcome_any_world self c w w Hq).
  - now rewrite (raise_emits_nothing self c w e R).
Qed.



(** X5: [set_amplitude] and [set_modulation_am_depth] send [str] of their
    argument as it is, whatever it is: the line has one more CR than that
    text. Text with a CR in it therefore puts several terminated lines on
    the wire. *)
Theorem plain_setter_sends_text_unchecked :
  forall (self : InstERASynthMicro) (v : value) (w : world),
    writes (emitted (set_amplitude self v w))
    = [encode ">SA" ++ encode (str v) ++ [x0d]; wire ">GH"]
    /\ writes (emitted (set_modulation_am_depth self v w))
       = [encode ">SMA" ++ encode (str v) ++ [x0d]; wire ">GH"]
    /\ cr_count (encode ">SA" ++ encode (str v) ++ [x0d])
       = S (cr_count (encode (str v)))
    /\ cr_count (encode ">SMA" ++ encode (str v) ++ [x0d])
       = S (cr_count (encode (str v))).
Proof.
  intros self v w.
  assert (W : forall code,
             wire (code +++ str v) = encode code ++ encode (str v) ++ [x0d]).
  { intros code. unfold wire. now rewrite encode_append, <- app_assoc. }
  unfold set_amplitude, set_modulation_am_depth.
  rewrite !setter_trace. cbn [emitted writes]. rewrite !W.
  repeat split.
  - rewrite !cr_count_app. change (cr_count [x0d]) with 1%nat.
    change (cr_count (encode ">SA")) with 0%nat. lia.
  - rewrite !cr_count_app. change (cr_count [x0d]) with 1%nat.
    change (cr_count (encode ">SMA")) with 0%nat. lia.
Qed.

(** *** Answers *)

Lemma lstrip_all_space (s : string) :
  all_space s = true <-> lstrip s = EmptyString.
Proof.
  induction s as [|c s IH]; simpl; [tauto|].
  destruct (isspace c); simpl; [exact IH|].
  split; intros H; discriminate H.
Qed.

Lemma rstrip_empty (s : string) :
  rstrip s = EmptyString -> all_space s = true.
Proof.
  induction s as [|c s IH]; simpl; [reflexivity|].
  destruct (rstrip s) as [|c' r]; [|intros H; discriminate H].
  destruct (isspace c); [|intros H; discriminate H].
  intros _. now apply IH.
Qed.

Lemma strip_empty (s : string) :
  strip s = EmptyString <-> all_space s = true.
Proof.
  unfold strip. split.
  - intros H. apply lstrip_all_space.
    destruct (lstrip_head s) as [E | (c & r & E & Hc)]; [exact E|].
    rewrite E in H. destruct (rstrip_keeps_head c r Hc) as [r' E'].
    rewrite E' in H. discriminate H.
  - intros H. apply lstrip_all_space in H. now rewrite H.
Qed.

Lemma lstrip_decompose (s : string) :
  exists a, s = a +++ lstrip s /\ all_space a = true.
Proof.
  induction s as [|c s (a & E & Ha)]; simpl.
  - now exists EmptyString.
  - destruct (isspace c) eqn:Hc.
    + exists (String c a). simpl. rewrite Hc, Ha. now rewrite <- E.
    + now exists EmptyString.
Qed.

Lemma rstrip_decompose (s : string) :
  exists b, s = rstrip s +++ b /\ all_space b = true.
Proof.
  induction s as [|c s (b & E & Hb)]; simpl.
  - now exists EmptyString.
  - destruct (rstrip s) as [|c' r] eqn:R.
    + simpl in E. subst b. destruct (isspace c) eqn:Hc.
      * exists (String c s). simpl. now rewrite Hc, Hb.
      * now exists s.
    + exists b. simpl. split; [|exact Hb]. f_equal. exact E.
Qed.

Lemma append_assoc (a b c : string) : (a +++ b) +++ c = a +++ b +++ c.
Proof. induction a as [|x a IH]; simpl; [reflexivity|]. now rewrite IH. Qed.

(** [strip] removes white space at both ends and nothing else. *)
Lemma strip_decompose (s : string) :
  exists a b, s = a +++ strip s +++ b
              /\ all_space a = true /\ all_space b = true.
Proof.
  unfold strip.
  destruct (lstrip_decompose s) as (a & Ea & Ha).
  destruct (rstrip_decompose (lstrip s)) as (b & Eb & Hb).
  exists a, b. split; [|now split].
  rewrite <- Eb. exact Ea.
Qed.

Lemma query_result (self : InstERASynthMicro) (w : world) :
  result (get_temperature self w) = Ok (strip (decode (hd [] (rx w))))
  /\ result (get_current self w) = Ok (strip (decode (hd [] (rx w)))).
Proof.
  unfold get_temperature, get_current, bind.
  rewrite !send_cmd_resp_trace. cbn [result emitted after ret app].
  now rewrite strip_idempotent.
Qed.

(** X6: a query returns the empty text, and no error, exactly when the
    instrument gave no answer before the timeout or an answer made of white
    space only. *)
Theorem query_returns_empty_iff_blank :
  forall (self : InstERASynthMicro) (w : world),
    let line := hd [] (rx w) in
    is_ascii (decode line) = true ->
    (result (get_temperature self w) = Ok EmptyString
     <-> all_space (decode line) = true)
    /\ (result (get_current self w) = Ok EmptyString
        <-> all_space (decode line) = true)
    /\ (rx w = [] -> result (get_temperature self w) = Ok EmptyString).
Proof.
  intros self w line _. subst line.
  destruct (query_result self w) as [-> ->].
  assert (E : Ok (strip (decode (hd [] (rx w)))) = Ok EmptyString
              <-> all_space (decode (hd [] (rx w))) = true).
  { rewrite <- strip_empty. split; [intros [= H]; exact H | now intros ->]. }
  split; [exact E|]. split; [exact E|].
  intros H. now rewrite H.
Qed.

(** X7: the text a query returns is the answer with white space removed at
    both ends and nothing else changed; it neither starts nor ends with
    white space. *)
Theorem query_result_is_the_answer_trimmed :
  forall (self : InstERASynthMicro) (w : world),
    let line := hd [] (rx w) in
    is_ascii (decode line) = true ->
    exists a r b,
      result (get_temperature self w) = Ok r
      /\ result (get_current self w) = Ok r
      /\ decode line = a +++ r +++ b
      /\ all_space a = true /\ all_space b = true
      /\ (r = EmptyString
          \/ exists c c',
               first_char r = Some c /\ isspace c = false
               /\ last_char r = Some c' /\ isspace c' = false).
Proof.
  intros self w line _. subst line.
  destruct (query_result self w) as [T C].
  destruct (strip_decompose (decode (hd [] (rx w)))) as (a & b & E & Ha & Hb).
  exists a, (strip (decode (hd [] (rx w)))), b.
  repeat (split; [assumption|]).
  destruct (strip_ends (decode (hd [] (rx w))))
    as [H | (c & r & c' & H & Hc & L & Hc')]; [now left|].
  right. exists c, c'. rewrite H in *. now repeat split.
Qed.

(** X8: two queries in a row take the next two lines of the instrument, in
    order, one each, and leave the rest; nothing pauses between them. *)
Theorem two_queries_read_two_lines :
  forall (self : InstERASynthMicro) (ps : list string) (l1 l2 : list byte)
         (rest : list (list byte)),
    is_ascii (decode l1) = true ->
    is_ascii (decode l2) = true ->
    (t <- get_temperature self ;; i <- get_current self ;; ret (t, i))
      (World ps (l1 :: l2 :: rest))
    = Outcome (Ok (strip (decode l1), strip (decode l2)))
        [EvWrite (wire ">RT"); EvFlush; EvReadline;
         EvWrite (wire ">RC"); EvFlush; EvReadline]
        (World ps rest).
Proof.
  intros self ps l1 l2 rest _ _.
  unfold get_temperature, get_current, bind.
  rewrite !send_cmd_resp_trace.
  cbn [result emitted after ret app rx ports hd tl].
  rewrite ?send_cmd_resp_trace.
  cbn [result emitted after ret app rx ports hd tl].
  now rewrite !strip_idempotent.
Qed.

(** *** Numbers at the edges *)

(** X10: a float whose value is a whole number is encoded as the int of
    that value is, so both make a setter write the same bytes. *)
Theorem whole_float_is_encoded_as_its_int :
  forall (f : float) (s : bool) (m : positive) (e z : Z)
         (self : InstERASynthMicro) (w : world),
    Prim2SF f = S754_finite s m e ->
    num s m e = z * den e ->
    __num_to_str (PyFloat f) = __num_to_str (PyInt z)
    /\ writes (emitted (set_frequency self (PyFloat f) w))
       = writes (emitted (set_frequency self (PyInt z) w)).
Proof.
  intros f s m e z self w Hf Hn.
  assert (E : __num_to_str (PyFloat f) = __num_to_str (PyInt z)).
  { unfold __num_to_str, int_float. rewrite Hf, Hn.
    rewrite Z.quot_mul; [reflexivity|].
    pose proof (den_positive e). lia. }
  split; [exact E|].
  unfold set_frequency. rewrite !numeric_setter_trace, E.
  destruct (__num_to_str (PyInt z)); reflexivity.
Qed.

(** X11: a float strictly between -1 and 1 is encoded as [0], with no sign,
    so a setter of a number sends the parameter [0] for it. *)
Theorem small_float_is_encoded_as_zero :
  forall (f : float) (s : bool) (m : positive) (e : Z)
         (self : InstERASynthMicro) (w : world),
    Prim2SF f = S754_finite s m e ->
    Z.abs (num s m e) < den e ->
    __num_to_str (PyFloat f) = Ok "0"
    /\ writes (emitted (set_frequency self (PyFloat f) w))
       = [wire ">F0"; wire ">GH"].
Proof.
  intros f s m e self w Hf Hlt.
  assert (E : __num_to_str (PyFloat f) = Ok "0").
  { unfold __num_to_str, int_float. rewrite Hf.
    replace (Z.quot (num s m e) (den e)) with 0; [reflexivity|].
    pose proof (den_positive e) as Hd.
    symmetry. apply Z.quot_small_iff; [lia|].
    now rewrite (Z.abs_eq (den e)) by lia. }
  split; [exact E|].
  unfold set_frequency. rewrite numeric_setter_trace, E. reflexivity.
Qed.
(** *** Logging *)

(** X9: no call logs an error; a call logs a warning, exactly one and no
    info record with it, when and only when it is a dispatcher given an
    alias it does not know. Apart from [set_preset], a call logs at most one
    record. *)
Theorem warnings_come_from_unknown_aliases_only :
  forall (self : InstERASynthMicro) (c : call) (w : world),
    let evs := emitted (invoke self c w) in
    logged ERROR evs = []
    /\ (if unknown_alias c
        then (exists msg, logged WARNING evs = [msg]) /\ logged INFO evs = []
        else logged WARNING evs = [])
    /\ (c = Set_preset
        \/ (List.length (logged INFO evs) + List.length (logged WARNING evs)
            <= 1)%nat).
Proof.
  intros self c w evs. subst evs.
  destruct c; unfold invoke;
    rewrite ?returns_none_outcome, ?returns_str_outcome; cbn [emitted];
    cbn [unknown_alias]; unfold code_of; cbn [table lookup];
    autounfold with setters;
    rewrite ?setter_trace, ?numeric_setter_trace;
    try (destruct (__num_to_str _));
    unfold set_modulation_source, set_modulation_type,
      set_modulation_wave_type, set_sweep_trigger, set_ref_source,
      set_vibration, get_temperature, get_current, bind;
    rewrite ?send_cmd_resp_trace;
    split_aliases;
    cbn [result emitted after ret app logged List.length Nat.add];
    (split; [reflexivity|]);
    (split; [first [reflexivity | split; [eexists|]; reflexivity]|]);
    first [left; reflexivity | right; cbn; lia].
Qed.
(** *** The lines of the calls *)

Lemma in_table_starts (cmd : string) :
  in_table cmd -> exists rest, cmd = String ">" rest.
Proof.
  intros [code H | code z H | code v H]; revert H;
    cbv [fixed_codes numeric_codes plain_codes In]; intros H;
    repeat (destruct H as [<-|H]; [eexists; reflexivity|]);
    contradiction.
Qed.

(** X13: every line the driver writes, for any call and any argument,
    begins with the byte [>]. *)
Theorem every_line_starts_with_the_prompt :
  forall (self : InstERASynthMicro) (c : call) (w : world),
    Forall (fun line => hd_error line = Some x3e)
      (writes (emitted (invoke self c w))).
Proof.
  intros self c w.
  eapply Forall_impl; [|exact (call_lines self c w)].
  intros line (cmd & Ht & -> & _).
  destruct (in_table_starts cmd Ht) as [rest ->]. reflexivity.
Qed.

(** What a call writes does not depend on the world. *)
Lemma writes_in_any_world (self : InstERASynthMicro) (c : call)
    (w w' : world) :
  writes (emitted (invoke self c w)) = writes (emitted (invoke self c w')).
Proof.
  destruct (is_query c) eqn:Hq.
  - destruct c; try discriminate Hq; unfold invoke;
      rewrite !returns_str_outcome;
      unfold get_temperature, get_current, bind;
      rewrite !send_cmd_resp_trace; reflexivity.
  - now rewrite (setter_outcome_any_world self c w w' Hq).
Qed.

(** X12: two different methods without argument never write the same
    lines, except [set_modulation_wave_sine] and
    [set_modulation_wave_triangle]. *)
Theorem only_sine_and_triangle_write_the_same :
  forall (self : InstERASynthMicro) (c1 c2 : call) (w : world),
    takes_no_argument c1 = true ->
    takes_no_argument c2 = true ->
    writes (emitted (invoke self c1 w)) = writes (emitted (invoke self c2 w)) ->
    c1 = c2
    \/ (c1 = Set_modulation_wave_sine /\ c2 = Set_modulation_wave_triangle)
    \/ (c1 = Set_modulation_wave_triangle /\ c2 = Set_modulation_wave_sine).
Proof.
  intros self c1 c2 w H1 H2.
  rewrite (writes_in_any_world self c1 w w0),
    (writes_in_any_world self c2 w w0).
  destruct c1; try discriminate H1; destruct c2; try discriminate H2;
    intros H;
    first [ left; reflexivity
          | right; left; split; reflexivity
          | right; right; split; reflexivity
          | exfalso; vm_compute in H; discriminate H ].
Qed.

(** *** Aliases *)

Lemma contains_In (names : list string) (x : string) :
  contains names x = true -> In x names.
Proof.
  unfold contains. intros H.
  apply existsb_exists in H as (y & Hy & E).
  apply String.eqb_eq in E. now subst y.
Qed.

Lemma lower_length (s : string) : String.length (lower s) = String.length s.
Proof. induction s as [|c s IH]; simpl; [reflexivity|]. now rewrite IH. Qed.

(** X14: a dispatcher takes an alias, without the warning, only when the
    alias is one of its names letter for letter, case apart: 2 to 10
    letters and nothing else. Nothing is trimmed, so the empty text and an
    alias with a space or a digit in it get the warning. *)
Theorem accepted_alias_is_letters_only :
  forall (d : setting) (self : InstERASynthMicro) (alias : string)
         (w : world),
    logged WARNING (emitted (dispatcher d self alias w)) = [] ->
    all_lower_letters (lower alias) = true
    /\ (2 <= String.length alias <= 10)%nat
    /\ exists code, code_of d alias = Some code.
Proof.
  intros d self alias w H.
  rewrite <- (lower_length alias).
  destruct (dispatcher_outcome d self alias w) as [_ T].
  destruct (code_of d alias) as [code|] eqn:Hc.
  - clear T H. revert Hc. unfold code_of.
    destruct d; cbn [table lookup];
      repeat match goal with
             | |- context [contains ?names (lower alias)] =>
                 let E := fresh "E" in
                 destruct (contains names (lower alias)) eqn:E;
                 [apply contains_In in E; cbv [In] in E;
                  repeat (destruct E as [<-|E]; [cbn; intros _;
                            repeat split; try lia; eexists; reflexivity|]);
                  contradiction|]
             end;
      intros Hn; discriminate Hn.
  - destruct T as [_ [msg Hm]]. rewrite Hm in H. discriminate H.
Qed.

End Driver.

(** The temperature query on the answer [" 23.5 \n"] returns ["23.5"]. *)
Lemma get_temperature_23_5 :
  let w := World [] [encode (" 23.5 " +++ LF)] in
  is_ascii (decode (hd [] (rx w))) = true
  /\ get_temperature self0 w
     = Outcome (Ok "23.5")
         [EvWrite (encode ">RT" ++ [x0d]); EvFlush; EvReadline]
         (World [] []).
Proof.
  split; [reflexivity|].
  exact (proj1 (query_returns_trimmed_line self0
                  (World [] [encode (" 23.5 " +++ LF)]) eq_refl)).
Defined.

(** An unavailable port: the construction exits and [set_rf_on], which was
    to follow, writes nothing. *)
Lemma init_on_missing_port :
  contains (ports w0) "/dev/ttyUSB0" = false
  /\ (self <- __init__ "/dev/ttyUSB0" ;; set_rf_on self) w0
     = Outcome (Raise SystemExit)
         [EvOpen "/dev/ttyUSB0";
          EvLog ERROR "ERROR: Unable to open serial port /dev/ttyUSB0"] w0.
Proof.
  split; [reflexivity|].
  exact (proj2 (proj2 (init_opens_the_port_or_exits "/dev/ttyUSB0" w0)
                  eq_refl) unit set_rf_on).
Defined.

(** C3 as stated fails: what [set_preset] writes is not the seven lines. *)
Lemma set_preset_does_not_write_seven_lines :
  writes (emitted (set_preset no_float_repr self0 w0))
  <> map wire [">SF0"; ">F1000000000"; ">SA0"; ">SM0"; ">SS6"; ">SR0"; ">GH"].
Proof. intros H. discriminate H. Qed.

(** [set_vibration("maybe")] writes nothing; [set_ref_source("maybe")]
    writes its refresh. *)
Lemma set_vibration_maybe :
  lower "maybe" <> "on" /\ lower "maybe" <> "off"
  /\ set_vibration self0 "maybe" w0
     = Outcome (Ok tt)
         [EvLog WARNING "Vibration setting not set, incorrect option: maybe"]
         w0
  /\ writes (emitted (set_ref_source self0 "maybe" w0))
     = [encode ">GH" ++ [x0d]].
Proof.
  assert (Hon : lower "maybe" <> "on") by (intros H; discriminate H).
  assert (Hoff : lower "maybe" <> "off") by (intros H; discriminate H).
  pose proof (set_vibration_unknown_option_writes_nothing
                self0 "maybe" w0 Hon Hoff) as (E & _ & R).
  split; [exact Hon|]. split; [exact Hoff|]. split; [exact E|].
  apply (R Ref_source "maybe"); [intros H; discriminate H | reflexivity].
Defined.

(** C2 as stated fails: [set_modulation_source] called with an alias it does
    not know still writes bytes, those of its refresh. *)
Lemma set_modulation_source_unknown_alias_writes :
  code_of Modulation_source "bogus" = None
  /\ writes (emitted (set_modulation_source self0 "bogus" w0)) <> [].
Proof. split; [reflexivity | intros H; discriminate H]. Qed.

(** [set_modulation_source("int")]: the command, then two refreshes. *)
Lemma set_modulation_source_int_refreshes_twice :
  refreshes_after (Set_modulation_source "int") = Some 2%nat
  /\ command no_float_repr (Set_modulation_source "int") = Some ">SMI0"
  /\ writes (emitted (invoke no_float_repr self0
                        (Set_modulation_source "int") w0))
     = [wire ">SMI0"; wire ">GH"; wire ">GH"].
Proof.
  split; [reflexivity|]. split; [reflexivity|].
  exact (proj2 (proj2 (proj1 (setter_is_followed_by_refreshes
                                no_float_repr self0 w0)
                         (Set_modulation_source "int") 2%nat ">SMI0"
                         eq_refl eq_refl))).
Defined.

(** C1 as stated fails: after its setting command,
    [set_modulation_source("int")] writes the refresh twice, not once. *)
Lemma set_modulation_source_int_not_one_refresh :
  count_occ (list_eq_dec Byte.byte_eq_dec)
    (writes (emitted (set_modulation_source self0 "int" w0))) (wire ">GH")
  <> 1%nat.
Proof. intros H. discriminate H. Qed.

(** [100.7] is 7086132538690765 / 2^46; its integer part is 100. The int
    [-15] is printable and encoded as [-15]. *)
Lemma num_to_str_100_7 :
  Prim2SF 100.7 = S754_finite false 7086132538690765 (-46)
  /\ (exists z, __num_to_str (PyFloat 100.7) = Ok (str_int z)
                /\ truncation 7086132538690765 (2 ^ 46) z)
  /\ printable (-15) = true
  /\ __num_to_str (PyInt (-15)) = Ok "-15".
Proof.
  assert (P : printable (-15) = true) by (vm_compute; reflexivity).
  split; [reflexivity|]. split; [|split; [exact P|]].
  - exact (proj1 (num_to_str_encodes no_float_repr)
             100.7%float false 7086132538690765%positive (-46) eq_refl).
  - exact (proj1 (proj1 (proj2 (proj2 (proj2 (proj2 (proj2 (proj2
             (num_to_str_encodes no_float_repr))))))) (-15) P)).
Defined.



(** [set_modulation_source("INT")] does what [set_modulation_source("int")]
    does: [>SMI0], then two refreshes. *)
Lemma set_modulation_source_upper_case :
  lower "INT" = lower "int"
  /\ code_of Modulation_source "int" = Some ">SMI0"
  /\ set_modulation_source self0 "INT" w0
     = set_modulation_source self0 "int" w0
  /\ writes (emitted (set_modulation_source self0 "INT" w0))
     = [wire ">SMI0"; wire ">GH"; wire ">GH"].
Proof.
  split; [reflexivity|]. split; [reflexivity|]. split; [|reflexivity].
  exact (proj2 (proj2 (dispatcher_follows_the_table
                         Modulation_source self0 "int" w0))
           "INT" eq_refl).
Defined.
(** [set_preset] pauses thirteen times, once per line. *)
Lemma set_preset_is_paced :
  is_query Set_preset = false
  /\ paced (emitted (invoke no_float_repr self0 Set_preset w0)) = true
  /\ sleeps (emitted (invoke no_float_repr self0 Set_preset w0)) = 13%nat.
Proof.
  split; [reflexivity|].
  exact (setter_trace_is_paced no_float_repr self0 Set_preset w0 eq_refl).
Defined.

(** [set_rf_on] with an answer pending does what it does with none, and
    leaves the answer where it is. *)
Lemma set_rf_on_leaves_the_answer :
  let w := World [] [encode "42"] in
  is_query Set_rf_on = false
  /\ invoke no_float_repr self0 Set_rf_on w
     = Outcome (result (invoke no_float_repr self0 Set_rf_on w0))
         (emitted (invoke no_float_repr self0 Set_rf_on w0)) w.
Proof.
  split; [reflexivity|].
  exact (proj1 (setter_ignores_the_world no_float_repr self0 Set_rf_on
                  (World [] [encode "42"]) w0 eq_refl)).
Defined.



(** With no answer before the timeout, the temperature is the empty text. *)
Lemma get_temperature_timeout :
  is_ascii (decode (hd [] (rx w0))) = true
  /\ rx w0 = []
  /\ result (get_temperature self0 w0) = Ok EmptyString.
Proof.
  split; [reflexivity|]. split; [reflexivity|].
  exact (proj2 (proj2 (query_returns_empty_iff_blank self0 w0 eq_refl))
           eq_refl).
Defined.

(** The answer [" 23.5 \n"] is one space, the text returned, and a space
    and a line feed. *)
Lemma get_current_trims_23_5 :
  let w := World [] [encode (" 23.5 " +++ LF)] in
  is_ascii (decode (hd [] (rx w))) = true
  /\ exists a r b,
       result (get_temperature self0 w) = Ok r
       /\ result (get_current self0 w) = Ok r
       /\ decode (hd [] (rx w)) = a +++ r +++ b
       /\ all_space a = true /\ all_space b = true
       /\ (r = EmptyString
           \/ exists c c',
                first_char r = Some c /\ isspace c = false
                /\ last_char r = Some c' /\ isspace c' = false).
Proof.
  split; [reflexivity|].
  exact (query_result_is_the_answer_trimmed self0
           (World [] [encode (" 23.5 " +++ LF)]) eq_refl).
Defined.

(** Temperature then current, on the answers ["23.5"] and ["0.41"]. *)
Lemma temperature_then_current :
  is_ascii (decode (encode "23.5")) = true
  /\ is_ascii (decode (encode "0.41")) = true
  /\ (t <- get_temperature self0 ;; i <- get_current self0 ;; ret (t, i))
       (World [] [encode "23.5"; encode "0.41"])
     = Outcome (Ok ("23.5", "0.41"))
         [EvWrite (wire ">RT"); EvFlush; EvReadline;
          EvWrite (wire ">RC"); EvFlush; EvReadline]
         (World [] []).
Proof.
  split; [reflexivity|]. split; [reflexivity|].
  exact (two_queries_read_two_lines self0 [] (encode "23.5") (encode "0.41")
           [] eq_refl eq_refl).
Defined.

(** [1e9] is 8388608000000000 / 2^23, that is 1000000000. *)
Lemma set_frequency_1e9_float_or_int :
  Prim2SF 1e9 = S754_finite false 8388608000000000 (-23)
  /\ num false 8388608000000000 (-23) = 1000000000 * den (-23)
  /\ __num_to_str (PyFloat 1e9) = __num_to_str (PyInt 1000000000).
Proof.
  split; [reflexivity|]. split; [reflexivity|].
  exact (proj1 (whole_float_is_encoded_as_its_int no_float_repr 1e9%float
                  false 8388608000000000%positive (-23) 1000000000 self0 w0
                  eq_refl eq_refl)).
Defined.

(** [-0.5] is encoded as [0], not [-0]. *)
Lemma set_frequency_minus_half :
  Prim2SF (-0.5) = S754_finite true 4503599627370496 (-53)
  /\ Z.abs (num true 4503599627370496 (-53)) < den (-53)
  /\ __num_to_str (PyFloat (-0.5)) = Ok "0".
Proof.
  split; [reflexivity|]. split; [reflexivity|].
  exact (proj1 (small_float_is_encoded_as_zero no_float_repr (-0.5)%float
                  true 4503599627370496%positive (-53) self0 w0
                  eq_refl eq_refl)).
Defined.

(** Sine and triangle are the pair that writes the same lines. *)
Lemma sine_and_triangle_collide :
  takes_no_argument Set_modulation_wave_sine = true
  /\ takes_no_argument Set_modulation_wave_triangle = true
  /\ writes (emitted (invoke no_float_repr self0
                        Set_modulation_wave_sine w0))
     = writes (emitted (invoke no_float_repr self0
                          Set_modulation_wave_triangle w0))
  /\ (Set_modulation_wave_sine = Set_modulation_wave_triangle
      \/ (Set_modulation_wave_sine = Set_modulation_wave_sine
          /\ Set_modulation_wave_triangle = Set_modulation_wave_triangle)
      \/ (Set_modulation_wave_sine = Set_modulation_wave_triangle
          /\ Set_modulation_wave_triangle = Set_modulation_wave_sine)).
Proof.
  split; [reflexivity|]. split; [reflexivity|]. split; [reflexivity|].
  exact (only_sine_and_triangle_write_the_same no_float_repr self0
           Set_modulation_wave_sine Set_modulation_wave_triangle w0
           eq_refl eq_refl eq_refl).
Defined.

(** [set_ref_source("Ext")] is taken; its alias is three letters. *)
Lemma set_ref_source_ext_is_accepted :
  logged WARNING (emitted (dispatcher Ref_source self0 "Ext" w0)) = []
  /\ all_lower_letters (lower "Ext") = true
  /\ (2 <= String.length "Ext" <= 10)%nat
  /\ exists code, code_of Ref_source "Ext" = Some code.
Proof.
  split; [reflexivity|].
  exact (accepted_alias_is_letters_only Ref_source self0 "Ext" w0 eq_refl).
Defined.

(** C4 as stated fails: on the float infinity the encoder emits no digits,
    it raises. *)
Lemma num_to_str_infinity_emits_nothing :
  __num_to_str (PyFloat infinity) = Raise OverflowError
  /\ ~ exists digits, __num_to_str (PyFloat infinity) = Ok digits.
Proof.
  split; [reflexivity|]. intros [digits H]. discriminate H.
Qed.
